(** * GoldPrime backend (app.py): price cache, scraper and price service

    A shallow embedding of [src/app.py].  Python code that touches the
    outside world (the cache file, the clock, the random generator, HTTP,
    the logger) is written in a small state-and-exception monad over a
    [World]; pure code is written as plain functions.

    Conventions of the embedding:
    - a Python [str] is a [string] holding its UTF-8 bytes, well formed;
      the only non-ASCII character the code names is the rupee sign, three
      bytes long.  White space and decimal digits are those of Unicode
      14.0, the version of CPython 3.11; [lower] changes the ASCII letters
      only, which is all the two markers it is searched for can see;
    - the repr of a string inside the message of an exception is the
      string between single quotes, without escapes nor cut;
    - a Python [float] is an IEEE binary64 value, [spec_float] with
      precision 53 and maximal exponent 1024, and the operations are the
      correctly rounded ones of [SpecFloat];
    - a Python [int] is a [Z];
    - only exceptions deriving from [Exception] are modelled, which is what
      the [except Exception] clauses of the code catch. *)

From Stdlib Require Import ZArith List String Ascii Bool Lia.
From Stdlib Require Import Permutation Sorted.
From Stdlib Require Import Floats.SpecFloat DecimalString.
Import ListNotations.

Local Open Scope string_scope.
Local Open Scope Z_scope.

(** ** Python values and exceptions *)

(** What [json.load] can produce, which is also all the code stores. *)
#[warnings="-register-all"]
Inductive pyval : Type :=
| PNone
| PBool (b : bool)
| PInt (z : Z)
| PFloat (f : spec_float)
| PStr (s : string)
| PList (l : list pyval)
| PDict (d : list (string * pyval)).

Inductive exc : Type :=
| AttributeError (msg : string)
| TypeError (msg : string)
| ValueError (msg : string)
| OverflowError (msg : string)
| OSError (msg : string)
| JSONDecodeError (msg : string)
| RequestException (msg : string).

(** [str(e)] *)
Definition exc_str (e : exc) : string :=
  match e with
  | AttributeError m | TypeError m | ValueError m | OverflowError m
  | OSError m | JSONDecodeError m | RequestException m => m
  end.

Inductive result (A : Type) : Type :=
| Ok (a : A)
| Raise (e : exc).
Arguments Ok {A} a.
Arguments Raise {A} e.

(** Truth value of an object, as [if x] and [x if c else y] test it. *)
Definition truthy (v : pyval) : bool :=
  match v with
  | PNone => false
  | PBool b => b
  | PInt z => negb (z =? 0)
  | PFloat (S754_zero _) => false
  | PFloat _ => true
  | PStr s => negb (s =? "")%string
  | PList l => match l with [] => false | _ => true end
  | PDict d => match d with [] => false | _ => true end
  end.

Fixpoint dict_lookup (d : list (string * pyval)) (k : string) : option pyval :=
  match d with
  | [] => None
  | (k', v) :: d' => if (k' =? k)%string then Some v else dict_lookup d' k
  end.

(** [type(v).__name__] *)
Definition type_name (v : pyval) : string :=
  match v with
  | PNone => "NoneType"
  | PBool _ => "bool"
  | PInt _ => "int"
  | PFloat _ => "float"
  | PStr _ => "str"
  | PList _ => "list"
  | PDict _ => "dict"
  end.

(** [data.get(key, default)]: only a dict has the method. *)
Definition py_get (data : pyval) (key : string) (default : pyval) : result pyval :=
  match data with
  | PDict d =>
      Ok (match dict_lookup d key with Some v => v | None => default end)
  | _ => Raise (AttributeError
                  ("'" ++ type_name data ++ "' object has no attribute 'get'"))
  end.

(** Sequencing of pure operations that may raise. *)
Definition rbind {A B} (r : result A) (k : A -> result B) : result B :=
  match r with
  | Ok a => k a
  | Raise e => Raise e
  end.

Declare Scope res_scope.
Delimit Scope res_scope with res.
Notation "x <- r ;; k" := (rbind r (fun x => k))
  (at level 61, r at next level, right associativity) : res_scope.

(** ** Floats *)

Definition prec : Z := 53.
Definition emax : Z := 1024.

(** The float nearest to an integer, ties to even; infinite when the
    integer is out of range. *)
Definition float_of_Z (z : Z) : spec_float := binary_normalize prec emax z 0 false.

(** Implicit conversion of an [int] operand of a float operation. *)
Definition py_float_of_int (z : Z) : result spec_float :=
  match float_of_Z z with
  | S754_infinity _ => Raise (OverflowError "int too large to convert to float")
  | f => Ok f
  end.

(** A decimal literal [n / 10^k] of the source text, correctly rounded. *)
Definition float_literal (n : Z) (pow10 : Z) : spec_float :=
  SFdiv prec emax (float_of_Z n) (float_of_Z pow10).

(** [x - v] with [x] a float. *)
Definition py_float_sub (x : spec_float) (v : pyval) : result spec_float :=
  match v with
  | PFloat f => Ok (SFsub prec emax x f)
  | PInt z => (f <- py_float_of_int z ;; Ok (SFsub prec emax x f))%res
  | PBool b => Ok (SFsub prec emax x (float_of_Z (if b then 1 else 0)))
  | _ => Raise (TypeError
                  ("unsupported operand type(s) for -: 'float' and '"
                   ++ type_name v ++ "'"))
  end.

(** [n * c] with [n] an int and [c] a float. *)
Definition py_int_mul_float (n : Z) (c : spec_float) : result spec_float :=
  (f <- py_float_of_int n ;; Ok (SFmul prec emax f c))%res.

(** [int(f)]: truncation toward zero. *)
Definition py_int_of_float (f : spec_float) : result Z :=
  match f with
  | S754_zero _ => Ok 0
  | S754_finite s m e =>
      Ok (cond_Zopp s
            (match e with
             | Z0 => Zpos m
             | Zpos p => Z.shiftl (Zpos m) (Zpos p)
             | Zneg p => Z.shiftr (Zpos m) (Zpos p)
             end))
  | S754_infinity _ => Raise (OverflowError "cannot convert float infinity to integer")
  | S754_nan => Raise (ValueError "cannot convert float NaN to integer")
  end.

(** [x < n] and [x > n] for a float [x] and a small int [n]. *)
Definition float_lt_int (x : spec_float) (n : Z) : bool := SFltb x (float_of_Z n).
Definition float_gt_int (x : spec_float) (n : Z) : bool := SFltb (float_of_Z n) x.
(** [x >= n] *)
Definition float_ge_int (x : spec_float) (n : Z) : bool := SFleb (float_of_Z n) x.

(** ** The world the program runs in *)

(** State of the path [CACHE_FILE]: a file that cannot be opened or
    decoded makes [open] or [json.load] raise [e]. *)
Inductive file_content : Type :=
| Unreadable (e : exc)
| Document (v : pyval).

(** A parsed HTML tree, as [BeautifulSoup(text, 'html.parser')] builds it. *)
#[warnings="-register-all"]
Inductive node : Type :=
| Text (s : string)
| Element (tag : string) (children : list node).

Record response : Type := {
  status_code : Z;
  soup : list node   (* the top-level nodes of the parsed [resp.text] *)
}.

Inductive http_outcome : Type :=
| Failed (e : exc)
| Answer (r : response).

Inductive level : Type := INFO | WARNING | ERROR.

Record World : Type := {
  cache_file : option file_content;  (* [None]: the path does not exist *)
  disk_fault : option exc;           (* raised by [open(CACHE_FILE, 'w')] *)
  write_fault : option (exc * file_content);
                                     (* raised while the opened file is written
                                        or closed, with what is left in it *)
  clock : nat -> spec_float;         (* value of the n-th [time.time()] *)
  clock_reads : nat;
  rng : nat -> nat;                  (* raw value of the n-th random draw *)
  rng_draws : nat;
  today : Z;                         (* ordinal of [datetime.date.today()] *)
  strftime : string -> Z -> string;  (* [date.strftime(fmt)], by ordinal *)
  now_strftime : string -> string;   (* [datetime.datetime.now().strftime(fmt)] *)
  network : nat -> string -> string -> http_outcome;
                                     (* answer to the n-th GET, by url and user agent *)
  requests_sent : list (string * string);
  log : list (level * string);
  threads : list string              (* targets of the threads started *)
}.

Definition set_cache_file (c : option file_content) (w : World) : World :=
  {| cache_file := c; disk_fault := disk_fault w;
     write_fault := write_fault w; clock := clock w;
     clock_reads := clock_reads w; rng := rng w; rng_draws := rng_draws w;
     today := today w; strftime := strftime w; now_strftime := now_strftime w;
     network := network w; requests_sent := requests_sent w; log := log w;
     threads := threads w |}.

Definition set_clock_reads (n : nat) (w : World) : World :=
  {| cache_file := cache_file w; disk_fault := disk_fault w;
     write_fault := write_fault w; clock := clock w;
     clock_reads := n; rng := rng w; rng_draws := rng_draws w;
     today := today w; strftime := strftime w; now_strftime := now_strftime w;
     network := network w; requests_sent := requests_sent w; log := log w;
     threads := threads w |}.

Definition set_rng_draws (n : nat) (w : World) : World :=
  {| cache_file := cache_file w; disk_fault := disk_fault w;
     write_fault := write_fault w; clock := clock w;
     clock_reads := clock_reads w; rng := rng w; rng_draws := n;
     today := today w; strftime := strftime w; now_strftime := now_strftime w;
     network := network w; requests_sent := requests_sent w; log := log w;
     threads := threads w |}.

Definition set_requests_sent (l : list (string * string)) (w : World) : World :=
  {| cache_file := cache_file w; disk_fault := disk_fault w;
     write_fault := write_fault w; clock := clock w;
     clock_reads := clock_reads w; rng := rng w; rng_draws := rng_draws w;
     today := today w; strftime := strftime w; now_strftime := now_strftime w;
     network := network w; requests_sent := l; log := log w;
     threads := threads w |}.

Definition set_log (l : list (level * string)) (w : World) : World :=
  {| cache_file := cache_file w; disk_fault := disk_fault w;
     write_fault := write_fault w; clock := clock w;
     clock_reads := clock_reads w; rng := rng w; rng_draws := rng_draws w;
     today := today w; strftime := strftime w; now_strftime := now_strftime w;
     network := network w; requests_sent := requests_sent w; log := l;
     threads := threads w |}.

Definition set_threads (l : list string) (w : World) : World :=
  {| cache_file := cache_file w; disk_fault := disk_fault w;
     write_fault := write_fault w; clock := clock w;
     clock_reads := clock_reads w; rng := rng w; rng_draws := rng_draws w;
     today := today w; strftime := strftime w; now_strftime := now_strftime w;
     network := network w; requests_sent := requests_sent w; log := log w;
     threads := l |}.

(** ** The monad: a computation changes the world and returns or raises.
    What a computation did before it raised stays done. *)

Definition M (A : Type) : Type := World -> result A * World.

Definition ret {A} (a : A) : M A := fun w => (Ok a, w).

Definition bind {A B} (m : M A) (k : A -> M B) : M B :=
  fun w =>
    match m w with
    | (Ok a, w') => k a w'
    | (Raise e, w') => (Raise e, w')
    end.

Definition raise {A} (e : exc) : M A := fun w => (Raise e, w).

(** A pure operation that may raise. *)
Definition lift {A} (r : result A) : M A := fun w => (r, w).

(** [try: body except Exception as e: handler(e)] *)
Definition try_except {A} (body : M A) (handler : exc -> M A) : M A :=
  fun w =>
    match body w with
    | (Ok a, w') => (Ok a, w')
    | (Raise e, w') => handler e w'
    end.

Declare Scope py_scope.
Delimit Scope py_scope with py.
Notation "x <- m ;; k" := (bind m (fun x => k))
  (at level 61, m at next level, right associativity) : py_scope.
Notation "m ;; k" := (bind m (fun _ => k))
  (at level 61, right associativity) : py_scope.
Local Open Scope py_scope.

(** *** Primitive effects *)

Definition logger (l : level) (msg : string) : M unit :=
  fun w => (Ok tt, set_log (log w ++ [(l, msg)]) w).

Definition time_time : M spec_float :=
  fun w => (Ok (clock w (clock_reads w)), set_clock_reads (S (clock_reads w)) w).

Definition random_draw : M nat :=
  fun w => (Ok (rng w (rng_draws w)), set_rng_draws (S (rng_draws w)) w).

(** [random.choice(l)] for a non-empty [l]. *)
Definition random_choice (l : list string) : M string :=
  r <- random_draw ;;
  ret (nth (Nat.modulo r (List.length l)) l "").

(** [random.randint(a, b)], both ends included. *)
Definition random_randint (a b : Z) : M Z :=
  r <- random_draw ;;
  ret (a + Z.of_nat r mod (b - a + 1)).

Definition os_path_exists : M bool :=
  fun w => (Ok (match cache_file w with Some _ => true | None => false end), w).

(** [with open(CACHE_FILE, 'r') as f: data = json.load(f)] *)
Definition read_json : M pyval :=
  fun w =>
    match cache_file w with
    | None =>
        (Raise (OSError "[Errno 2] No such file or directory: 'gold_cache.json'"), w)
    | Some (Unreadable e) => (Raise e, w)
    | Some (Document v) => (Ok v, w)
    end.

(** [requests.get(url, headers={"User-Agent": ua}, timeout=...)] *)
Definition requests_get (url ua : string) : M response :=
  fun w =>
    let w' := set_requests_sent (requests_sent w ++ [(url, ua)]) w in
    match network w (List.length (requests_sent w)) url ua with
    | Failed e => (Raise e, w')
    | Answer r => (Ok r, w')
    end.

(** [threading.Thread(target=t).start()] *)
Definition thread_start (target : string) : M unit :=
  fun w => (Ok tt, set_threads (threads w ++ [target]) w).

(** ** Configuration *)

Definition CACHE_EXPIRY_SECONDS : Z := 3600.
Definition REQUEST_TIMEOUT : Z := 5.
Definition FAILSAFE_ANCHOR_PRICE : Z := 1.
Definition MIN_VALID_PRICE : Z := 140000.
Definition MAX_VALID_PRICE : Z := 180000.

(** The decimal digits of an int, with its sign. *)
Definition show_Z (n : Z) : string := NilZero.string_of_int (Z.to_int n).

(** The longest run of decimal digits an int is converted from or to
    ([sys.get_int_max_str_digits()]), and the least magnitude that has
    more digits. *)
Definition INT_MAX_STR_DIGITS : Z := 4300.
Definition int_str_limit : Z := 10 ^ INT_MAX_STR_DIGITS.

(** The int has more digits than the limit; an int of fewer than 14282
    bits is below [int_str_limit] and is not compared with it. *)
Definition too_many_digits (n : Z) : bool :=
  if Z.log2 (Z.abs n) <? 14282 then false else int_str_limit <=? Z.abs n.

Definition too_many_digits_to_format : exc :=
  ValueError
    "Exceeds the limit (4300 digits) for integer string conversion; use sys.set_int_max_str_digits() to increase the limit".

(** [f"{n}"], [str(n)] and [repr(n)] for an int. *)
Definition format_int (n : Z) : result string :=
  if too_many_digits n then Raise too_many_digits_to_format else Ok (show_Z n).

(** What is left of the record when the price cannot be formatted: the
    text up to the price, which [json.load] refuses. *)
Definition cut_at_price : file_content :=
  Unreadable (JSONDecodeError "Expecting value: line 1 column 11 (char 10)").

(** [with open(CACHE_FILE, 'w') as f: json.dump(data, f)] for the record of
    [save], whose first key is the price.  [open] may raise and then
    nothing is touched.  Once it has succeeded the file is empty; the
    encoder writes the text up to the price before it formats the price,
    and the file is flushed and closed on the way out, which may raise
    whatever happened before. *)
Definition write_record (price : Z) (others : list (string * pyval)) : M unit :=
  fun w =>
    match disk_fault w with
    | Some e => (Raise e, w)
    | None =>
        match write_fault w with
        | Some (e, remains) => (Raise e, set_cache_file (Some remains) w)
        | None =>
            match format_int price with
            | Raise e => (Raise e, set_cache_file (Some cut_at_price) w)
            | Ok _ =>
                (Ok tt,
                 set_cache_file
                   (Some (Document (PDict (("price", PInt price) :: others)))) w)
            end
        end
    end.

(** ** String operations of the Python library *)

(** *** Characters

    A string holds the UTF-8 bytes of its characters. *)

(** The number of bytes of the character a byte leads, 0 for a byte that
    leads none. *)
Definition utf8_width (c : ascii) : nat :=
  let n := nat_of_ascii c in
  (if n <? 128 then 1
   else if n <? 192 then 0
   else if n <? 224 then 2
   else if n <? 240 then 3
   else if n <? 248 then 4
   else 0)%nat.

(** The payload of a byte that continues a character. *)
Definition continuation (c : ascii) : option N :=
  let n := N_of_ascii c in
  if ((128 <=? n) && (n <? 192))%N then Some (n - 128)%N else None.

(** The code point of the character at the head of [s]. *)
Definition code_point (s : string) : option N :=
  match s with
  | EmptyString => None
  | String c0 r =>
      let n0 := N_of_ascii c0 in
      match utf8_width c0, r with
      | 1%nat, _ => Some n0
      | 2%nat, String c1 _ =>
          match continuation c1 with
          | Some x1 => Some ((n0 - 192) * 64 + x1)%N
          | None => None
          end
      | 3%nat, String c1 (String c2 _) =>
          match continuation c1, continuation c2 with
          | Some x1, Some x2 => Some (((n0 - 224) * 64 + x1) * 64 + x2)%N
          | _, _ => None
          end
      | 4%nat, String c1 (String c2 (String c3 _)) =>
          match continuation c1, continuation c2, continuation c3 with
          | Some x1, Some x2, Some x3 =>
              Some ((((n0 - 240) * 64 + x1) * 64 + x2) * 64 + x3)%N
          | _, _, _ => None
          end
      | _, _ => None
      end
  end.

(** The code points [str.isspace()] holds of. *)
Definition unicode_spaces : list N :=
  [9; 10; 11; 12; 13; 28; 29; 30; 31; 32; 133; 160; 5760; 8192; 8193; 8194;
   8195; 8196; 8197; 8198; 8199; 8200; 8201; 8202; 8232; 8233; 8239; 8287;
   12288]%N.

Definition is_unicode_space (cp : N) : bool := existsb (N.eqb cp) unicode_spaces.

(** A character that is white space is at the head of [s]. *)
Definition space_ahead (s : string) : bool :=
  match code_point s with
  | Some cp => is_unicode_space cp
  | None => false
  end.

(** The digit 0 of every run of ten decimal digits outside ASCII. *)
Definition decimal_zeros : list N :=
  [1632; 1776; 1984; 2406; 2534; 2662; 2790; 2918; 3046; 3174; 3302; 3430;
   3558; 3664; 3792; 3872; 4160; 4240; 6112; 6160; 6470; 6608; 6784; 6800;
   6992; 7088; 7232; 7248; 42528; 43216; 43264; 43472; 43504; 43600; 44016;
   65296; 66720; 68912; 69734; 69872; 69942; 70096; 70384; 70736; 70864;
   71248; 71360; 71472; 71904; 72016; 72784; 73040; 73120; 92768; 92864;
   93008; 120782; 120792; 120802; 120812; 120822; 123200; 123632; 125264;
   130032]%N.

(** The value of a decimal digit. *)
Definition unicode_decimal (cp : N) : option N :=
  match find (fun z => (z <=? cp) && (cp <? z + 10))%N decimal_zeros with
  | Some z => Some (cp - z)%N
  | None => None
  end.

Fixpoint is_ascii (s : string) : bool :=
  match s with
  | EmptyString => true
  | String c s' => (nat_of_ascii c <? 128)%nat && is_ascii s'
  end.

(** White space for the C library, which [int()] skips around a number. *)
Definition is_int_space (c : ascii) : bool :=
  let n := nat_of_ascii c in
  ((9 <=? n) && (n <=? 13) || (n =? 32))%nat.

Definition lower_ascii (c : ascii) : ascii :=
  let n := nat_of_ascii c in
  if ((65 <=? n) && (n <=? 90))%nat then ascii_of_nat (n + 32) else c.

(** [s.lower()] *)
Fixpoint lower (s : string) : string :=
  match s with
  | EmptyString => EmptyString
  | String c s' => String (lower_ascii c) (lower s')
  end.

(** [needle in hay] *)
Fixpoint contains (needle hay : string) : bool :=
  prefix needle hay
  || match hay with
     | EmptyString => false
     | String _ hay' => contains needle hay'
     end.

Section Strip.

Variable space : ascii -> bool.

Fixpoint lstrip_by (s : string) : string :=
  match s with
  | EmptyString => EmptyString
  | String c s' => if space c then lstrip_by s' else s
  end.

End Strip.

(** White space dropped from the left; [skip] counts the bytes of a
    character of white space still to be dropped. *)
Fixpoint lstrip_from (skip : nat) (s : string) : string :=
  match s with
  | EmptyString => EmptyString
  | String c s' =>
      match skip with
      | S k => lstrip_from k s'
      | O => if space_ahead s then lstrip_from (utf8_width c - 1) s' else s
      end
  end.

(** The string is white space from here on. *)
Fixpoint all_space_from (skip : nat) (s : string) : bool :=
  match s with
  | EmptyString => true
  | String c s' =>
      match skip with
      | S k => all_space_from k s'
      | O => if space_ahead s then all_space_from (utf8_width c - 1) s' else false
      end
  end.

Fixpoint rstrip (s : string) : string :=
  match s with
  | EmptyString => EmptyString
  | String c s' => if all_space_from 0 s then EmptyString else String c (rstrip s')
  end.

(** [s.strip()] *)
Definition strip (s : string) : string := rstrip (lstrip_from 0 s).

(** [s.replace(old, new)] for a non-empty [old]: the occurrences are
    replaced from the left and do not overlap; [skip] counts the
    characters of a matched occurrence still to be dropped. *)
Fixpoint replace_from (old new : string) (skip : nat) (s : string) : string :=
  match s with
  | EmptyString => EmptyString
  | String c s' =>
      match skip with
      | S k => replace_from old new k s'
      | O =>
          if prefix old s
          then new ++ replace_from old new (String.length old - 1) s'
          else String c (replace_from old new 0 s')
      end
  end.

Definition replace (old new s : string) : string := replace_from old new 0 s.

Definition digit_of (c : ascii) : option Z :=
  let n := Z.of_nat (nat_of_ascii c) in
  if (48 <=? n) && (n <=? 57) then Some (n - 48) else None.

(** The run of digits at the head of [s]: its value after [acc], the
    number of its digits after [count], and what follows it.  Single
    underscores may separate digits: there is no run when an underscore
    comes first, follows another or ends the run. *)
Fixpoint scan_digits (s : string) (acc count : Z) (after_digit : bool)
  : option (Z * Z * string) :=
  let stop := if after_digit || (count =? 0) then Some (acc, count, s) else None in
  match s with
  | EmptyString => stop
  | String c s' =>
      match digit_of c with
      | Some d => scan_digits s' (10 * acc + d) (count + 1) true
      | None =>
          if (c =? "_")%char
          then (if after_digit then scan_digits s' acc count false else None)
          else stop
      end
  end.

(** What [int()] parses of a string that is not ASCII: white space
    becomes a blank, a decimal digit its ASCII digit, and the string is
    cut with a question mark at any other character outside ASCII. *)
Fixpoint to_ascii_decimal (skip : nat) (s : string) : string :=
  match s with
  | EmptyString => EmptyString
  | String c s' =>
      match skip with
      | S k => to_ascii_decimal k s'
      | O =>
          if (nat_of_ascii c <? 127)%nat then String c (to_ascii_decimal 0 s')
          else
            match code_point s with
            | None => "?"
            | Some cp =>
                if is_unicode_space cp
                then String " " (to_ascii_decimal (utf8_width c - 1) s')
                else
                  match unicode_decimal cp with
                  | Some d =>
                      String (ascii_of_N (48 + d))
                        (to_ascii_decimal (utf8_width c - 1) s')
                  | None => "?"
                  end
            end
      end
  end.

Definition invalid_literal (s : string) : exc :=
  ValueError ("invalid literal for int() with base 10: '" ++ s ++ "'").

Definition too_many_digits_to_parse (digits : Z) : exc :=
  ValueError ("Exceeds the limit (4300 digits) for integer string conversion: value has "
              ++ show_Z digits
              ++ " digits; use sys.set_int_max_str_digits() to increase the limit").

(** [int(s)] in base 10: white space around, an optional sign, a run of
    digits, of 4300 at most. *)
Definition py_int (s : string) : result Z :=
  let text := if is_ascii s then s else to_ascii_decimal 0 s in
  let t := lstrip_by is_int_space text in
  let '(negative, body) :=
    match t with
    | String "+" r => (false, r)
    | String "-" r => (true, r)
    | _ => (false, t)
    end in
  match scan_digits body 0 0 false with
  | None => Raise (invalid_literal s)
  | Some (value, digits, rest) =>
      if digits =? 0 then Raise (invalid_literal s)
      else if INT_MAX_STR_DIGITS <? digits then Raise (too_many_digits_to_parse digits)
      else
        match lstrip_by is_int_space rest with
        | EmptyString => Ok (if negative : bool then - value else value)
        | _ => Raise (invalid_literal s)
        end
  end.

(** ** The parsed document *)

(** [node.text]: the text of the node and of all it contains, in order. *)
Fixpoint get_text (n : node) : string :=
  match n with
  | Text s => s
  | Element _ children =>
      (fix texts (l : list node) : string :=
         match l with
         | [] => EmptyString
         | c :: l' => get_text c ++ texts l'
         end) children
  end.

(** All nodes below [n], in document order. *)
Fixpoint descendants (n : node) : list node :=
  match n with
  | Text _ => []
  | Element _ children =>
      (fix below (l : list node) : list node :=
         match l with
         | [] => []
         | c :: l' => c :: descendants c ++ below l'
         end) children
  end.

Definition has_tag (name : string) (n : node) : bool :=
  match n with
  | Text _ => false
  | Element tag _ => (tag =? name)%string
  end.

(** [node.find_all(name)] *)
Definition find_all (name : string) (n : node) : list node :=
  filter (has_tag name) (descendants n).

(** [soup.find_all(name)] on the document itself. *)
Definition soup_find_all (name : string) (doc : list node) : list node :=
  flat_map (fun n => filter (has_tag name) (n :: descendants n)) doc.

(** ** Layer 1: CacheManager *)

Module CacheManager.

(** [CacheManager.save(price)] *)
Definition save (price : Z) : M unit :=
  try_except
    (stamp <- time_time ;;
     human <- (fun w => (Ok (now_strftime w "%Y-%m-%d %H:%M:%S"), w)) ;;
     write_record price [("timestamp", PFloat stamp); ("human_time", PStr human)] ;;
     text <- lift (format_int price) ;;
     logger INFO ("Cache updated: " ++ text))
    (fun e => logger ERROR ("Failed to write cache: " ++ exc_str e)).

(** [CacheManager.load(ignore_expiry)] *)
Definition load (ignore_expiry : bool) : M pyval :=
  there <- os_path_exists ;;
  if negb there then ret PNone
  else
    try_except
      (data <- read_json ;;
       now <- time_time ;;
       stamp <- lift (py_get data "timestamp" (PInt 0)) ;;
       age <- lift (py_float_sub now stamp) ;;
       if float_lt_int age CACHE_EXPIRY_SECONDS || ignore_expiry
       then lift (py_get data "price" PNone)
       else ret PNone)
      (fun e => logger ERROR ("Failed to read cache: " ++ exc_str e) ;; ret PNone).

End CacheManager.

(** ** Layer 2: MarketScraper *)

Module MarketScraper.

Definition USER_AGENTS : list string :=
  ["Mozilla/5.0 (Windows NT 10.0; Win64; x64) AppleWebKit/537.36 (KHTML, like Gecko) Chrome/91.0.4472.124 Safari/537.36";
   "Mozilla/5.0 (Macintosh; Intel Mac OS X 10_15_7) AppleWebKit/605.1.15 (KHTML, like Gecko) Version/14.0.3 Safari/605.1.15";
   "Mozilla/5.0 (Linux; Android 10; SM-G981B) AppleWebKit/537.36 (KHTML, like Gecko) Chrome/80.0.3987.162 Mobile Safari/537.36"].

(** The names the class body binds; looking up any other name on the
    class raises [AttributeError]. *)
Definition attributes : list string :=
  ["USER_AGENTS"; "_get_headers"; "fetch_goodreturns"; "_validate_price"].

(** [MarketScraper.<name>] *)
Definition getattr (name : string) : M string :=
  if existsb (String.eqb name) attributes then ret name
  else raise (AttributeError
                ("type object 'MarketScraper' has no attribute '" ++ name ++ "'")).

(** [_get_headers]: the value of the User-Agent header. *)
Definition _get_headers : M string := random_choice USER_AGENTS.

(** [_validate_price(price)] *)
Definition _validate_price (price : Z) : M bool :=
  if (MIN_VALID_PRICE <? price) && (price <? MAX_VALID_PRICE) then ret true
  else (text <- lift (format_int price) ;;
        logger WARNING ("Rejected suspicious price: " ++ text) ;;
        ret false).

Definition sources : list string :=
  ["https://www.policybazaar.com/gold-rate/";
   "https://www.goodreturns.in/gold-rates/";
   "https://www.tanishq.co.in/gold-rate.html?lang=en_IN"].

Definition rupee : string := "₹".

(** The text of a price cell, cleaned and read as an int (lines 184-186). *)
Definition parse_price_cell (cell_text : string) : result Z :=
  let raw_str := strip cell_text in
  let clean_str := replace "." "" (replace "," "" (replace rupee "" raw_str)) in
  py_int clean_str.

(** How the body of a loop ends: it goes on, or the function returns. *)
Inductive flow : Type :=
| Continue
| Return (price : Z).

Definition row_qualifies (cols : list node) : bool :=
  (1 <? Z.of_nat (List.length cols))
  && contains "10" (get_text (nth 0 cols (Text ""))).

(** [for row in rows: ...] *)
Fixpoint scan_rows (rows : list node) : M flow :=
  match rows with
  | [] => ret Continue
  | row :: rest =>
      let cols := find_all "td" row in
      if row_qualifies cols then
        price <- lift (parse_price_cell (get_text (nth 1 cols (Text "")))) ;;
        valid <- _validate_price price ;;
        if valid then ret (Return price) else scan_rows rest
      else scan_rows rest
  end.

Definition table_qualifies (table : node) : bool :=
  let table_text := lower (get_text table) in
  contains "10 gram" table_text && contains "24" table_text.

(** [for table in tables: ...] *)
Fixpoint scan_tables (tables : list node) : M flow :=
  match tables with
  | [] => ret Continue
  | table :: rest =>
      if table_qualifies table then
        r <- scan_rows (find_all "tr" table) ;;
        match r with
        | Return price => ret (Return price)
        | Continue => scan_tables rest
        end
      else scan_tables rest
  end.

(** The body of the [try] for one source. *)
Definition scrape (url : string) : M flow :=
  ua <- _get_headers ;;
  resp <- requests_get url ua ;;
  if negb (status_code resp =? 200) then ret Continue
  else scan_tables (soup_find_all "table" (soup resp)).

(** One turn of [for url in sources], the [try] with its handler. *)
Definition attempt (url : string) : M flow :=
  logger INFO ("Attempting to scrape: " ++ url) ;;
  try_except (scrape url)
    (fun e => logger ERROR ("Error scraping " ++ url ++ ": " ++ exc_str e) ;;
              ret Continue).

(** [for url in sources: ...] followed by [return None]. *)
Fixpoint fetch_from (urls : list string) : M (option Z) :=
  match urls with
  | [] => ret None
  | url :: rest =>
      r <- attempt url ;;
      match r with
      | Return price => ret (Some price)
      | Continue => fetch_from rest
      end
  end.

(** [MarketScraper.fetch_goodreturns()] *)
Definition fetch_goodreturns : M (option Z) := fetch_from sources.

End MarketScraper.

(** ** Data: the geographic pricing map, in the order of the source *)

Definition STATE_OFFSETS : list (string * Z) :=
  [("Delhi", 21); ("Haryana", 14); ("Punjab", 16); ("Himachal Pradesh", 19);
   ("Jammu and Kashmir", 18); ("Ladakh", 22); ("Uttarakhand", 12);
   ("Uttar Pradesh", 17); ("Chandigarh", 15); ("Rajasthan", 24);
   ("Maharashtra", 23); ("Gujarat", 16); ("Goa", 15);
   ("Dadra and Nagar Haveli", 19); ("Daman and Diu", 18);
   ("Karnataka", 10); ("Tamil Nadu", 8); ("Kerala", -25); ("Telangana", -8);
   ("Andhra Pradesh", -18); ("Puducherry", -20); ("Lakshadweep", 14);
   ("Andaman and Nicobar Islands", 130);
   ("West Bengal", 60); ("Odisha", 40); ("Bihar", 50); ("Jharkhand", 50);
   ("Madhya Pradesh", 50); ("Chhattisgarh", 40);
   ("Assam", 80); ("Sikkim", 100); ("Arunachal Pradesh", 200); ("Manipur", 200);
   ("Meghalaya", 180); ("Mizoram", 200); ("Nagaland", 200); ("Tripura", 200)].

(** ** Layer 3: GoldService *)

Module GoldService.

(** [GoldService.get_master_price()] *)
Definition get_master_price : M pyval :=
  cached_price <- CacheManager.load true ;;
  there <- os_path_exists ;;
  data <- (if there then read_json else ret PNone) ;;
  now <- time_time ;;
  stamp <- (if truthy data then lift (py_get data "timestamp" (PInt 0))
            else ret (PInt 0)) ;;
  age <- lift (py_float_sub now stamp) ;;
  (if float_gt_int age CACHE_EXPIRY_SECONDS then
     logger INFO "Cache stale. Triggering background update..." ;;
     target <- MarketScraper.getattr "fetch_goodreturns_and_save" ;;
     thread_start target
   else ret tt) ;;
  ret (if truthy cached_price then cached_price else PInt FAILSAFE_ANCHOR_PRICE).

Record chart : Type := { labels : list string; data : list Z }.
Record charts : Type := { weekly : chart; monthly : chart }.

(** [range(n, -1, -1)] *)
Fixpoint countdown (n : nat) : list Z :=
  match n with
  | O => [0]
  | S k => Z.of_nat n :: countdown k
  end.

Definition variance_pattern : list Z := [-450; -120; 220; -80; 300; 90; 0].

(** [(today - datetime.timedelta(days=i)).strftime(fmt)] *)
Definition day_label (fmt : string) (day i : Z) : M string :=
  fun w => (Ok (strftime w fmt (day - i)), w).

(** The weekly loop; the index [6 - i] stays within the pattern. *)
Fixpoint week_loop (base_price day : Z) (days : list Z) : M (list string * list Z) :=
  match days with
  | [] => ret ([], [])
  | i :: rest =>
      day_lbl <- day_label "%a" day i ;;
      let value := base_price + nth (Z.to_nat (6 - i)) variance_pattern 0 in
      tl <- week_loop base_price day rest ;;
      ret (day_lbl :: fst tl, value :: snd tl)
  end.

(** The monthly loop, [current_sim_price] threaded through the turns. *)
Fixpoint month_loop (base_price day : Z) (days : list Z) (current_sim_price : Z)
  : M (list string * list Z) :=
  match days with
  | [] => ret ([], [])
  | i :: rest =>
      day_lbl <- day_label "%d %b" day i ;;
      change <- random_randint (-300) 400 ;;
      let walked := current_sim_price + change in
      let current := if i =? 0 then base_price else walked in
      tl <- month_loop base_price day rest current ;;
      ret (day_lbl :: fst tl, current :: snd tl)
  end.

(** [GoldService.generate_charts(base_price)] *)
Definition generate_charts (base_price : Z) : M charts :=
  day <- (fun w => (Ok (today w), w)) ;;
  wk <- week_loop base_price day (countdown 6) ;;
  mo <- month_loop base_price day (countdown 29) (base_price - 1500) ;;
  ret {| weekly := {| labels := fst wk; data := snd wk |};
         monthly := {| labels := fst mo; data := snd mo |} |}.

Record state_entry : Type := {
  name : string;
  p24 : Z;
  p22 : Z;
  p24_1g : Z;
  p22_1g : Z
}.

(** [int(n * literal)] *)
Definition scaled (n : Z) (c : spec_float) : result Z :=
  (f <- py_int_mul_float n c ;; py_int_of_float f)%res.

(** [for state_name, offset in STATE_OFFSETS.items(): ...] *)
Fixpoint region_loop (base_price_24k base_price_22k : Z) (offsets : list (string * Z))
  : result (list state_entry) :=
  match offsets with
  | [] => Ok []
  | (state_name, offset) :: rest =>
      (let p24 := base_price_24k + offset in
       off22 <- scaled offset (float_literal 9 10) ;;
       let p22 := base_price_22k + off22 in
       tl <- region_loop base_price_24k base_price_22k rest ;;
       Ok ({| name := state_name; p24 := p24; p22 := p22;
              p24_1g := p24 / 10; p22_1g := p22 / 10 |} :: tl))%res
  end.

(** [results.sort(key=lambda x: x['name'])]: a stable sort on the name. *)
Fixpoint insert_by_name (e : state_entry) (l : list state_entry) : list state_entry :=
  match l with
  | [] => [e]
  | y :: l' => if (name y <? name e)%string then y :: insert_by_name e l' else e :: l
  end.

Definition sort_by_name (l : list state_entry) : list state_entry :=
  fold_right insert_by_name [] l.

(** [GoldService.calculate_all_states(base_price_24k)] *)
Definition calculate_all_states (base_price_24k : Z) : result (list state_entry) :=
  (base_price_22k <- scaled base_price_24k (float_literal 9166 10000) ;;
   results <- region_loop base_price_24k base_price_22k STATE_OFFSETS ;;
   Ok (sort_by_name results))%res.

End GoldService.

(** ** Example documents and worlds *)

Definition price_row (what price : string) : node :=
  Element "tr" [Element "td" [Text what]; Element "td" [Text price]].

(** A page with one rate table made of the given rows. *)
Definition rate_page (rows : list node) : response :=
  {| status_code := 200;
     soup := [Element "html"
                [Element "body"
                   [Element "h1" [Text "Gold Rate Today"];
                    Element "table"
                      (Element "tr" [Element "th" [Text "Gram"];
                                     Element "th" [Text "24K Gold"]] :: rows)]]] |}.

Definition no_network : nat -> string -> string -> http_outcome :=
  fun _ _ _ => Failed (RequestException "connection refused").

Definition cached_record (price : Z) (stamp : Z) : file_content :=
  Document (PDict [("price", PInt price);
                   ("timestamp", PFloat (float_of_Z stamp));
                   ("human_time", PStr "2026-02-01 10:00:00")]).

(** A first start: no cache file, the clock at some date of 2026. *)
Definition fresh_install : World :=
  {| cache_file := None; disk_fault := None; write_fault := None;
     clock := fun _ => float_of_Z 1770000000; clock_reads := 0;
     rng := fun n => n; rng_draws := 0;
     today := 739650; strftime := fun _ _ => ""; now_strftime := fun _ => "";
     network := no_network; requests_sent := []; log := []; threads := [] |}.

Definition with_cache (c : file_content) (w : World) : World :=
  set_cache_file (Some c) w.

Definition with_network (n : nat -> string -> string -> http_outcome) (w : World) : World :=
  {| cache_file := cache_file w; disk_fault := disk_fault w;
     write_fault := write_fault w; clock := clock w;
     clock_reads := clock_reads w; rng := rng w; rng_draws := rng_draws w;
     today := today w; strftime := strftime w; now_strftime := now_strftime w;
     network := n; requests_sent := requests_sent w; log := log w;
     threads := threads w |}.

(** ** Vocabulary of the statements *)

(** The characters a price cell is written with: digits, the thousands
    comma, the decimal point and the rupee sign. *)
Inductive digit : Type := D0 | D1 | D2 | D3 | D4 | D5 | D6 | D7 | D8 | D9.

Inductive price_char : Type :=
| Digit (d : digit)
| Comma
| Dot
| Rupee.

Definition digit_ascii (d : digit) : ascii :=
  match d with
  | D0 => "0" | D1 => "1" | D2 => "2" | D3 => "3" | D4 => "4"
  | D5 => "5" | D6 => "6" | D7 => "7" | D8 => "8" | D9 => "9"
  end%char.

Definition digit_value (d : digit) : Z :=
  match d with
  | D0 => 0 | D1 => 1 | D2 => 2 | D3 => 3 | D4 => 4
  | D5 => 5 | D6 => 6 | D7 => 7 | D8 => 8 | D9 => 9
  end.

(** The text of a cell. *)
Fixpoint render (l : list price_char) : string :=
  match l with
  | [] => EmptyString
  | Digit d :: r => String (digit_ascii d) (render r)
  | Comma :: r => String "," (render r)
  | Dot :: r => String "." (render r)
  | Rupee :: r => MarketScraper.rupee ++ render r
  end.

Definition is_digit (c : price_char) : bool :=
  match c with
  | Digit _ => true
  | _ => false
  end.

(** The number the digits of a cell spell, read from the left after [acc]. *)
Fixpoint digits_value (l : list price_char) (acc : Z) : Z :=
  match l with
  | [] => acc
  | Digit d :: r => digits_value r (10 * acc + digit_value d)
  | _ :: r => digits_value r acc
  end.

(** The cell without the characters [drop] selects. *)
Definition keep (drop : price_char -> bool) (l : list price_char) : list price_char :=
  filter (fun c => negb (drop c)) l.

Definition is_rupee (c : price_char) : bool :=
  match c with Rupee => true | _ => false end.
Definition is_comma (c : price_char) : bool :=
  match c with Comma => true | _ => false end.
Definition is_dot (c : price_char) : bool :=
  match c with Dot => true | _ => false end.

(** The number of digits of a cell. *)
Definition digit_count (l : list price_char) : Z :=
  Z.of_nat (List.length (filter is_digit l)).

(** A record is fully well formed when it is a JSON object with an integer
    price and a numeric timestamp. *)
Definition well_formed (c : file_content) : bool :=
  match c with
  | Document (PDict d) =>
      match dict_lookup d "price", dict_lookup d "timestamp" with
      | Some (PInt _), Some (PInt _ | PFloat _) => true
      | _, _ => false
      end
  | _ => false
  end.


(** A record one hour old at most, one two hours old, and one that lost
    its timestamp. *)
Definition fresh_cache : World := with_cache (cached_record 168000 1769999000) fresh_install.
Definition stale_cache : World := with_cache (cached_record 165000 1769992800) fresh_install.
Definition corrupt_cache : World :=
  with_cache (Unreadable (JSONDecodeError "Expecting value: line 1 column 1 (char 0)"))
    fresh_install.

(** [w'] is [w] with more lines in the log and nothing else changed. *)
Definition log_extended (w w' : World) : Prop :=
  exists lines, w' = set_log (log w ++ lines) w.

(** The world after one source was tried: one random draw for the user
    agent, one request sent, and the log as it is then. *)
Definition after_attempt (url : string) (w : World) (lines : list (level * string)) : World :=
  set_log (log w ++ lines)
    (set_requests_sent
       (requests_sent w
        ++ [(url, nth (Nat.modulo (rng w (rng_draws w))
                         (List.length MarketScraper.USER_AGENTS))
                    MarketScraper.USER_AGENTS "")])
       (set_rng_draws (S (rng_draws w)) w)).


(** A network that answers with the page listed for the url, if any. *)
Fixpoint network_of (pages : list (string * response))
  : nat -> string -> string -> http_outcome :=
  fun n url ua =>
    match pages with
    | [] => no_network n url ua
    | (u, page) :: rest =>
        if (u =? url)%string then Answer page else network_of rest n url ua
    end.

Definition policybazaar : string := "https://www.policybazaar.com/gold-rate/".

(** Scenario 3 of the specification: a stale record of 165000, and the
    first source publishes 170500. *)
Definition scenario3 : World :=
  with_network
    (network_of [(policybazaar, rate_page [price_row "10 Gram" "₹1,70,500"])])
    stale_cache.



(** [a] sorts strictly before [b], characters compared by code. *)
Definition name_before (a b : string) : Prop := (a <? b)%string = true.

(** The stable sort of [sort_by_name], on the names alone. *)
Fixpoint insert_name (a : string) (l : list string) : list string :=
  match l with
  | [] => [a]
  | b :: l' => if (b <? a)%string then b :: insert_name a l' else a :: l
  end.

Definition sort_names (l : list string) : list string := fold_right insert_name [] l.

Fixpoint distinct (l : list string) : bool :=
  match l with
  | [] => true
  | a :: r => negb (existsb (String.eqb a) r) && distinct r
  end.

Fixpoint ascending (l : list string) : bool :=
  match l with
  | a :: (b :: _) as r => (a <? b)%string && ascending r
  | _ => true
  end.

(** [int(offset * 0.9)] is defined for the offset of every region. *)
Definition offsets_scale (offsets : list (string * Z)) : bool :=
  forallb (fun '(_, offset) =>
             match GoldService.scaled offset (float_literal 9 10) with
             | Ok _ => true
             | Raise _ => false
             end) offsets.

(** ** Layer 4: the status endpoint *)

(** The dict [system_status] hands to [jsonify]. *)
Record status_payload : Type := {
  status : string;
  cached_price : pyval;
  cache_file_exists : bool
}.

(** [system_status()] *)
Definition system_status : M status_payload :=
  cached <- CacheManager.load true ;;
  there <- os_path_exists ;;
  ret {| status := "online"; cached_price := cached; cache_file_exists := there |}.

(** ** More vocabulary *)

(** A computation that always returns. *)
Definition never_raises {A} (m : M A) : Prop :=
  forall w, exists a, fst (m w) = Ok a.

(** A computation whose only effects are readings of the clock and lines
    in the log: the cache file, the random generator, the requests and the
    threads are as they were. *)
Definition reads_and_logs_only {A} (m : M A) : Prop :=
  forall w, exists k lines, snd (m w) = set_log lines (set_clock_reads k w).

(** The user agent the next request will carry. *)
Definition next_user_agent (w : World) : string :=
  nth (Nat.modulo (rng w (rng_draws w)) (List.length MarketScraper.USER_AGENTS))
    MarketScraper.USER_AGENTS "".

(** The timestamp [load] and [get_master_price] read from a record. *)
Definition stamp_of (d : list (string * pyval)) : pyval :=
  match dict_lookup d "timestamp" with
  | Some v => v
  | None => PInt 0
  end.

(** A series that moves by a step between -300 and 400 on every day but
    the days numbered 0, where it is [base]. *)
Fixpoint step_ok (base prev : Z) (days series : list Z) : Prop :=
  match days, series with
  | [], [] => True
  | i :: days', v :: series' =>
      (if i =? 0 then v = base else -300 <= v - prev <= 400)
      /\ step_ok base v days' series'
  | _, _ => False
  end.

(** [f] holds of the [n] integers from [lo] on. *)
Fixpoint all_from (n : nat) (lo : Z) (f : Z -> bool) : bool :=
  match n with
  | O => true
  | S k => f lo && all_from k (lo + 1) f
  end.

(** On [b] the float product [int(b * 0.9166)] is the integer quotient. *)
Definition scaling_exact (b : Z) : bool :=
  match GoldService.scaled b (float_literal 9166 10000) with
  | Ok z => z =? b * 9166 / 10000
  | Raise _ => false
  end.

(** On the offset of every region [int(offset * 0.9)] is the integer
    quotient, rounded toward zero. *)
Definition offsets_exact (offsets : list (string * Z)) : bool :=
  forallb (fun '(_, offset) =>
             match GoldService.scaled offset (float_literal 9 10) with
             | Ok z => z =? Z.quot (offset * 9) 10
             | Raise _ => false
             end) offsets.

(** The entry of a region, in integer arithmetic. *)
Definition entry_of (base24 base22 : Z) (region : string * Z) : GoldService.state_entry :=
  let p24 := base24 + snd region in
  let p22 := base22 + Z.quot (snd region * 9) 10 in
  {| GoldService.name := fst region;
     GoldService.p24 := p24;
     GoldService.p22 := p22;
     GoldService.p24_1g := p24 / 10;
     GoldService.p22_1g := p22 / 10 |}.

(** A page whose first listed rate cannot be read. *)
Definition unreadable_first_rate : World :=
  with_network
    (network_of [(policybazaar, rate_page [price_row "10 Gram" "N/A";
                                           price_row "10 Gram" "₹1,50,000"])])
    fresh_install.

(** A page served with an error status. *)
Definition error_page : World :=
  with_network
    (network_of [(policybazaar,
                  {| status_code := 503;
                     soup := soup (rate_page [price_row "10 Gram" "₹1,50,000"]) |})])
    fresh_install.

(** A record exactly one hour old at the second reading of the clock. *)
Definition hour_old_cache : World :=
  with_cache (cached_record 168000 1769996400) fresh_install.

(** A disk that refuses writes. *)
Definition read_only_disk : World :=
  {| cache_file := None;
     disk_fault := Some (OSError "[Errno 30] Read-only file system: 'gold_cache.json'");
     write_fault := None;
     clock := fun _ => float_of_Z 1770000000; clock_reads := 0;
     rng := fun n => n; rng_draws := 0;
     today := 739650; strftime := fun _ _ => ""; now_strftime := fun _ => "";
     network := no_network; requests_sent := []; log := []; threads := [] |}.

(** A full disk: the file is opened, and emptied, and nothing can be
    written to it. *)
Definition full_disk : World :=
  {| cache_file := Some (cached_record 165000 1769992800);
     disk_fault := None;
     write_fault :=
       Some (OSError "[Errno 28] No space left on device",
             Unreadable (JSONDecodeError "Expecting value: line 1 column 1 (char 0)"));
     clock := fun _ => float_of_Z 1770000000; clock_reads := 0;
     rng := fun n => n; rng_draws := 0;
     today := 739650; strftime := fun _ _ => ""; now_strftime := fun _ => "";
     network := no_network; requests_sent := []; log := []; threads := [] |}.

(** The world [save] leaves when the write failed with [e]: the clock was
    read and the failure is logged. *)
Definition save_failed (e : exc) (w : World) : World :=
  set_log (log w ++ [(ERROR, "Failed to write cache: " ++ exc_str e)])
    (set_clock_reads (S (clock_reads w)) w).

(** A record whose timestamp is a string. *)
Definition text_stamp_cache : World :=
  with_cache
    (Document (PDict [("price", PInt 168000); ("timestamp", PStr "2026-02-02 08:00:00")]))
    fresh_install.

(** * Properties *)

(** ** Integers and their text *)

Section IntText.

Lemma int_str_limit_pos : 0 < int_str_limit.
Proof. unfold int_str_limit, INT_MAX_STR_DIGITS. apply Z.pow_pos_nonneg; lia. Qed.

(** [2 ^ 93 <= 10 ^ 28] and [2 ^ 53 <= 10 ^ 16]. *)
Lemma shortcut_below_limit : 2 ^ 14282 <= int_str_limit.
Proof.
  unfold int_str_limit, INT_MAX_STR_DIGITS.
  change 14282 with (93 * 153 + 53). change 4300 with (28 * 153 + 16).
  rewrite !Z.pow_add_r, !Z.pow_mul_r by lia.
  apply Z.mul_le_mono_nonneg.
  - apply Z.pow_nonneg, Z.pow_nonneg. lia.
  - apply Z.pow_le_mono_l. split; [apply Z.pow_nonneg; lia |].
    apply Z.leb_le. reflexivity.
  - apply Z.pow_nonneg. lia.
  - apply Z.leb_le. reflexivity.
Qed.

Lemma too_many_digits_spec (n : Z) :
  too_many_digits n = (int_str_limit <=? Z.abs n).
Proof.
  unfold too_many_digits.
  destruct (Z.log2 (Z.abs n) <? 14282) eqn:L; [| reflexivity].
  symmetry. apply Z.leb_gt. apply Z.ltb_lt in L.
  destruct (Z.lt_ge_cases (Z.abs n) int_str_limit) as [H | H]; [exact H |].
  exfalso.
  assert (14282 <= Z.log2 (Z.abs n)).
  { rewrite <- (Z.log2_pow2 14282) by (clear; lia).
    apply Z.log2_le_mono. etransitivity; [apply shortcut_below_limit | exact H]. }
  clear - L H0. lia.
Qed.

Lemma format_int_short (n : Z) :
  Z.abs n < int_str_limit -> format_int n = Ok (show_Z n).
Proof.
  intros H. unfold format_int. rewrite too_many_digits_spec.
  apply Z.leb_gt in H. rewrite H. reflexivity.
Qed.

Lemma format_int_long (n : Z) :
  int_str_limit <= Z.abs n -> format_int n = Raise too_many_digits_to_format.
Proof.
  intros H. unfold format_int. rewrite too_many_digits_spec.
  apply Z.leb_le in H. rewrite H. reflexivity.
Qed.

Lemma limit_above_band : MAX_VALID_PRICE < int_str_limit.
Proof.
  apply Z.lt_le_trans with (10 ^ 6); [reflexivity |].
  unfold int_str_limit, INT_MAX_STR_DIGITS. apply Z.pow_le_mono_r; lia.
Qed.

Lemma digit_of_range (c : ascii) (d : Z) : digit_of c = Some d -> 0 <= d <= 9.
Proof.
  unfold digit_of.
  destruct ((48 <=? Z.of_nat (nat_of_ascii c)) && (Z.of_nat (nat_of_ascii c) <=? 57))
    eqn:B; [| discriminate].
  intros H. injection H as <-.
  apply andb_true_iff in B as [B1 B2]. apply Z.leb_le in B1, B2. lia.
Qed.

(** A run of [n] digits spells a number below [10 ^ n]. *)
Lemma scan_digits_bound (s : string) :
  forall acc count after_digit v n rest,
    scan_digits s acc count after_digit = Some (v, n, rest) ->
    0 <= count -> 0 <= acc < 10 ^ count ->
    0 <= v < 10 ^ n /\ count <= n.
Proof.
  induction s as [| c s' IH]; intros acc count b v n rest; cbn [scan_digits].
  - destruct (b || (count =? 0)); [| discriminate].
    intros H; injection H as <- <- _. intros; split; [assumption | apply Z.le_refl].
  - destruct (digit_of c) as [d |] eqn:D.
    + intros H Hc Ha. apply digit_of_range in D.
      apply IH in H.
      * destruct H as [Hv Hn]. split; [exact Hv | clear - Hn; lia].
      * clear - Hc; lia.
      * replace (count + 1) with (Z.succ count) by (clear; lia).
        rewrite Z.pow_succ_r by exact Hc.
        clear - Ha D. lia.
    + destruct (c =? "_")%char.
      * destruct b; [| discriminate].
        intros H Hc Ha. exact (IH _ _ _ _ _ _ H Hc Ha).
      * destruct (b || (count =? 0)); [| discriminate].
        intros H; injection H as <- <- _.
        intros; split; [assumption | apply Z.le_refl].
Qed.

(** What [int()] reads has 4300 digits at most, so it can be formatted. *)
Lemma py_int_bound (s : string) (p : Z) :
  py_int s = Ok p -> Z.abs p < int_str_limit.
Proof.
  unfold py_int.
  destruct (match lstrip_by is_int_space (if is_ascii s then s else to_ascii_decimal 0 s) with
            | String "+" r => (false, r)
            | String "-" r => (true, r)
            | _ => (false, lstrip_by is_int_space
                             (if is_ascii s then s else to_ascii_decimal 0 s))
            end) as [negative body].
  destruct (scan_digits body 0 0 false) as [[[v n] rest] |] eqn:E; [| discriminate].
  destruct (n =? 0); [discriminate |].
  destruct (INT_MAX_STR_DIGITS <? n) eqn:L; [discriminate |].
  destruct (lstrip_by is_int_space rest); [| discriminate].
  intros H. injection H as <-.
  apply scan_digits_bound in E; [| apply Z.le_refl | split; [apply Z.le_refl | reflexivity]].
  destruct E as [Hv _]. apply Z.ltb_ge in L.
  assert (10 ^ n <= int_str_limit)
    by (unfold int_str_limit; apply Z.pow_le_mono_r; [reflexivity | exact L]).
  clear - Hv H. destruct negative; lia.
Qed.

Lemma py_int_formats (s : string) (p : Z) :
  py_int s = Ok p -> format_int p = Ok (show_Z p).
Proof. intros H. apply format_int_short. exact (py_int_bound _ _ H). Qed.

End IntText.

(** ** Price validation *)

Lemma validate_price_run (p : Z) (w : World) :
  MarketScraper._validate_price p w
  = if (MIN_VALID_PRICE <? p) && (p <? MAX_VALID_PRICE) then (Ok true, w)
    else match format_int p with
         | Ok text =>
             (Ok false,
              set_log (log w ++ [(WARNING, "Rejected suspicious price: " ++ text)]) w)
         | Raise e => (Raise e, w)
         end.
Proof.
  unfold MarketScraper._validate_price.
  destruct ((MIN_VALID_PRICE <? p) && (p <? MAX_VALID_PRICE)); [reflexivity |].
  unfold bind at 1, lift. destruct (format_int p); reflexivity.
Qed.

Lemma validate_price_value (p : Z) (w : World) :
  fst (MarketScraper._validate_price p w)
  = if (MIN_VALID_PRICE <? p) && (p <? MAX_VALID_PRICE) then Ok true
    else if int_str_limit <=? Z.abs p then Raise too_many_digits_to_format
    else Ok false.
Proof.
  rewrite validate_price_run.
  destruct ((MIN_VALID_PRICE <? p) && (p <? MAX_VALID_PRICE)); [reflexivity |].
  unfold format_int. rewrite too_many_digits_spec.
  destruct (int_str_limit <=? Z.abs p); reflexivity.
Qed.

(** C7: the validation predicate answers true exactly for the prices
    strictly between [MIN_VALID_PRICE] and [MAX_VALID_PRICE]; it answers
    false at both bounds and true one step inside each of them.  Outside
    the band it answers false when the price can be written in the
    warning, that is with 4300 digits at most, and raises [ValueError]
    when it cannot. *)
Theorem validate_price_exclusive_bounds :
  forall (p : Z) (w : World),
    (fst (MarketScraper._validate_price p w) = Ok true
     <-> MIN_VALID_PRICE < p < MAX_VALID_PRICE)
    /\ (fst (MarketScraper._validate_price p w) = Ok false
        <-> ~ (MIN_VALID_PRICE < p < MAX_VALID_PRICE) /\ Z.abs p < int_str_limit)
    /\ (fst (MarketScraper._validate_price p w) = Raise too_many_digits_to_format
        <-> int_str_limit <= Z.abs p)
    /\ fst (MarketScraper._validate_price MIN_VALID_PRICE w) = Ok false
    /\ fst (MarketScraper._validate_price MAX_VALID_PRICE w) = Ok false
    /\ fst (MarketScraper._validate_price (MIN_VALID_PRICE + 1) w) = Ok true
    /\ fst (MarketScraper._validate_price (MAX_VALID_PRICE - 1) w) = Ok true.
Proof.
  intros p w.
  assert (B : (MIN_VALID_PRICE <? p) && (p <? MAX_VALID_PRICE) = true
              <-> MIN_VALID_PRICE < p < MAX_VALID_PRICE)
    by (rewrite andb_true_iff, !Z.ltb_lt; tauto).
  pose proof limit_above_band as LB.
  assert (In_band : MIN_VALID_PRICE < p < MAX_VALID_PRICE -> Z.abs p < int_str_limit)
    by (unfold MIN_VALID_PRICE; clear - LB; lia).
  refine (conj _ (conj _ (conj _ _))); try rewrite validate_price_value.
  - destruct ((MIN_VALID_PRICE <? p) && (p <? MAX_VALID_PRICE)).
    + split; [intros _; apply B; reflexivity | reflexivity].
    + split.
      * destruct (int_str_limit <=? Z.abs p); discriminate.
      * intros H. apply B in H. discriminate.
  - destruct ((MIN_VALID_PRICE <? p) && (p <? MAX_VALID_PRICE)).
    + split; [discriminate |]. intros [H _]. exfalso. apply H, B. reflexivity.
    + destruct (int_str_limit <=? Z.abs p) eqn:L.
      * split; [discriminate |]. intros [_ H]. apply Z.leb_le in L.
        exfalso. clear - L H. lia.
      * split; [| reflexivity]. intros _. split.
        -- intros H. apply B in H. discriminate.
        -- apply Z.leb_gt. exact L.
  - destruct ((MIN_VALID_PRICE <? p) && (p <? MAX_VALID_PRICE)).
    + split; [discriminate |]. intros H.
      assert (E : Z.abs p < int_str_limit) by (apply In_band, B; reflexivity).
      exfalso. clear - E H. lia.
    + destruct (int_str_limit <=? Z.abs p) eqn:L.
      * split; [intros _; apply Z.leb_le; exact L | reflexivity].
      * split; [discriminate |]. intros H. apply Z.leb_gt in L.
        exfalso. clear - L H. lia.
  - split; [| split; [| split]]; reflexivity.
Qed.

(** ** Chart synthesis *)

Section Charts.

Import GoldService.

Variables base_price day : Z.

Lemma week_loop_data (days : list Z) (w : World) :
  exists ls,
    week_loop base_price day days w
    = (Ok (ls, map (fun i => base_price + nth (Z.to_nat (6 - i)) variance_pattern 0) days), w)
    /\ List.length ls = List.length days.
Proof.
  induction days as [| i rest IH]; simpl.
  - exists []. split; reflexivity.
  - destruct IH as (ls & E & L).
    unfold bind, day_label. rewrite E. simpl.
    eexists. split; [reflexivity | simpl; congruence].
Qed.

(** Whatever the random draws are, the monthly loop yields one value per
    day and the value of a day numbered 0 is the base price. *)
Lemma month_loop_shape (days : list Z) :
  forall (current : Z) (w : World),
  exists ls ds w',
    month_loop base_price day days current w = (Ok (ls, ds), w')
    /\ List.length ls = List.length days
    /\ List.length ds = List.length days
    /\ (forall k, nth_error days k = Some 0 -> nth_error ds k = Some base_price).
Proof.
  induction days as [| i rest IH]; intros current w; simpl.
  - exists [], [], w. repeat split; try reflexivity.
    intros [| k]; discriminate.
  - unfold bind at 1. unfold day_label at 1.
    unfold bind at 1. unfold random_randint at 1, bind at 1, random_draw at 1, ret at 1.
    unfold bind at 1.
    match goal with
    | |- context [month_loop _ _ rest ?c ?w1] =>
        destruct (IH c w1) as (ls & ds & w' & E & L1 & L2 & Hz); rewrite E
    end.
    unfold ret. do 3 eexists. split; [reflexivity |]. simpl.
    repeat split; try congruence.
    intros [| k] Hk; simpl in *.
    + injection Hk as ->. reflexivity.
    + apply Hz. exact Hk.
Qed.

End Charts.

(** C9: for every base price and every sequence of random draws, the
    weekly series has 7 values and the monthly series 30, and the last
    value of each is the base price itself. *)
Theorem generate_charts_series_end_at_base :
  forall (base_price : Z) (w : World),
  exists c w',
    GoldService.generate_charts base_price w = (Ok c, w')
    /\ List.length (GoldService.data (GoldService.weekly c)) = 7%nat
    /\ nth_error (GoldService.data (GoldService.weekly c)) 6 = Some base_price
    /\ List.length (GoldService.data (GoldService.monthly c)) = 30%nat
    /\ nth_error (GoldService.data (GoldService.monthly c)) 29 = Some base_price
    /\ List.length (GoldService.labels (GoldService.weekly c)) = 7%nat
    /\ List.length (GoldService.labels (GoldService.monthly c)) = 30%nat.
Proof.
  intros base_price w. unfold GoldService.generate_charts.
  unfold bind at 1. cbv beta iota.
  destruct (week_loop_data base_price (today w) (GoldService.countdown 6) w)
    as (wl & Ew & Lw).
  unfold bind at 1. rewrite Ew.
  destruct (month_loop_shape base_price (today w) (GoldService.countdown 29)
              (base_price - 1500) w)
    as (ml & md & w' & Em & L1 & L2 & Hz).
  unfold bind at 1. rewrite Em. unfold ret.
  do 2 eexists. split; [reflexivity |].
  cbn [GoldService.data GoldService.labels GoldService.weekly GoldService.monthly fst snd].
  refine (conj _ (conj _ (conj _ (conj _ (conj _ _))))).
  - reflexivity.
  - simpl. f_equal. lia.
  - exact L2.
  - apply Hz. reflexivity.
  - exact Lw.
  - exact L1.
Qed.

(** ** Normalization of a price cell *)

Section PriceCell.

Import MarketScraper.

(** No character of a price cell is white space. *)
Lemma space_ahead_render (c : price_char) (r : list price_char) :
  space_ahead (render (c :: r)) = false.
Proof. destruct c as [d | | |]; [destruct d | | |]; reflexivity. Qed.

Lemma lstrip_render (l : list price_char) : lstrip_from 0 (render l) = render l.
Proof.
  destruct l as [| c r]; [reflexivity |].
  pose proof (space_ahead_render c r) as H.
  destruct (render (c :: r)) as [| a s]; [reflexivity |].
  cbn [lstrip_from]. rewrite H. reflexivity.
Qed.

Lemma rstrip_cons (c : ascii) (s : string) :
  space_ahead (String c s) = false -> rstrip (String c s) = String c (rstrip s).
Proof. intros H. cbn [rstrip all_space_from]. rewrite H. reflexivity. Qed.

Lemma rstrip_render (l : list price_char) : rstrip (render l) = render l.
Proof.
  induction l as [| c r IH]; [reflexivity |].
  destruct c as [d | | |]; [destruct d | | |]; cbn [render rupee append];
    rewrite !rstrip_cons by reflexivity; rewrite IH; reflexivity.
Qed.

Lemma strip_render (l : list price_char) : strip (render l) = render l.
Proof. unfold strip. rewrite lstrip_render. apply rstrip_render. Qed.

Lemma prefix_empty (s : string) : prefix "" s = true.
Proof. destruct s; reflexivity. Qed.

Lemma replace_rupee (l : list price_char) :
  replace rupee "" (render l) = render (keep is_rupee l).
Proof.
  unfold replace.
  induction l as [| [d | | |] r IH]; simpl; try (rewrite IH; reflexivity).
  - reflexivity.
  - destruct d; simpl; rewrite IH; reflexivity.
  - rewrite prefix_empty. exact IH.
Qed.

Lemma replace_comma (l : list price_char) :
  replace "," "" (render l) = render (keep is_comma l).
Proof.
  unfold replace.
  induction l as [| [d | | |] r IH]; simpl; try (rewrite IH; reflexivity).
  - reflexivity.
  - destruct d; simpl; rewrite IH; reflexivity.
  - rewrite prefix_empty. exact IH.
Qed.

Lemma replace_dot (l : list price_char) :
  replace "." "" (render l) = render (keep is_dot l).
Proof.
  unfold replace.
  induction l as [| [d | | |] r IH]; simpl; try (rewrite IH; reflexivity).
  - reflexivity.
  - destruct d; simpl; rewrite IH; reflexivity.
  - rewrite prefix_empty. exact IH.
Qed.

Lemma keep_all_three (l : list price_char) :
  keep is_dot (keep is_comma (keep is_rupee l)) = filter is_digit l.
Proof.
  induction l as [| [d | | |] r IH]; simpl; try exact IH; try reflexivity.
  f_equal. exact IH.
Qed.

(** What is left of a cell for [int]. *)
Lemma clean_render (l : list price_char) :
  replace "." "" (replace "," "" (replace rupee "" (strip (render l))))
  = render (filter is_digit l).
Proof.
  rewrite strip_render, replace_rupee, replace_comma, replace_dot, keep_all_three.
  reflexivity.
Qed.

Lemma digits_value_filter (l : list price_char) :
  forall acc, digits_value (filter is_digit l) acc = digits_value l acc.
Proof.
  induction l as [| [d | | |] r IH]; intros acc; simpl; auto.
Qed.

Lemma is_ascii_digits (l : list price_char) :
  forallb is_digit l = true -> is_ascii (render l) = true.
Proof.
  induction l as [| c r IH]; [reflexivity |].
  destruct c as [d | | |]; try discriminate.
  intros H. cbn [render is_ascii]. rewrite (IH H). destruct d; reflexivity.
Qed.

Lemma scan_digits_render (l : list price_char) :
  forallb is_digit l = true ->
  forall acc count after_digit,
    scan_digits (render l) acc count after_digit
    = match l with
      | [] => if after_digit || (count =? 0) then Some (acc, count, "") else None
      | _ => Some (digits_value l acc, count + Z.of_nat (List.length l), "")
      end.
Proof.
  induction l as [| c r IH]; intros Hd acc count b; [reflexivity |].
  destruct c as [d | | |]; try discriminate. simpl in Hd.
  cbn [render digits_value].
  assert (E : forall s a n b',
             scan_digits (String (digit_ascii d) s) a n b'
             = scan_digits s (10 * a + digit_value d) (n + 1) true)
    by (intros; destruct d; reflexivity).
  rewrite E, (IH Hd). destruct r as [| c' r'].
  - reflexivity.
  - f_equal. f_equal. f_equal. cbn [List.length]. lia.
Qed.

(** [int] on a run of digits: their value, unless they are too many. *)
Lemma py_int_digits (l : list price_char) :
  forallb is_digit l = true -> l <> [] ->
  py_int (render l)
  = if Z.of_nat (List.length l) <=? INT_MAX_STR_DIGITS then Ok (digits_value l 0)
    else Raise (too_many_digits_to_parse (Z.of_nat (List.length l))).
Proof.
  intros Hd Hne. unfold py_int. rewrite (is_ascii_digits l Hd).
  destruct l as [| c r]; [contradiction |].
  assert (E : lstrip_by is_int_space (render (c :: r)) = render (c :: r)).
  { destruct c as [d | | |]; try discriminate. destruct d; reflexivity. }
  rewrite E.
  assert (S : match render (c :: r) with
              | String "+" t => (false, t)
              | String "-" t => (true, t)
              | _ => (false, render (c :: r))
              end = (false, render (c :: r))).
  { destruct c as [d | | |]; try discriminate. destruct d; reflexivity. }
  rewrite S, (scan_digits_render _ Hd).
  set (n := Z.of_nat (List.length (c :: r))).
  assert (Hn : 0 < n) by (subst n; cbn [List.length]; lia).
  replace (0 + n) with n by reflexivity.
  replace (n =? 0) with false by (symmetry; apply Z.eqb_neq; lia).
  rewrite (Z.leb_antisym INT_MAX_STR_DIGITS n).
  destruct (INT_MAX_STR_DIGITS <? n); reflexivity.
Qed.

(** A cell with a digit in it: the cleaning leaves its digits alone. *)
Lemma parse_price_cell_render (l : list price_char) :
  existsb is_digit l = true ->
  parse_price_cell (render l)
  = if digit_count l <=? INT_MAX_STR_DIGITS then Ok (digits_value l 0)
    else Raise (too_many_digits_to_parse (digit_count l)).
Proof.
  intros Hd. unfold parse_price_cell, digit_count. rewrite clean_render, py_int_digits.
  - rewrite digits_value_filter. reflexivity.
  - apply forallb_forall. intros c Hc. apply filter_In in Hc. tauto.
  - intros E. apply existsb_exists in Hd as (c & Hc & Hdc).
    assert (Hin : In c (filter is_digit l)) by (apply filter_In; tauto).
    rewrite E in Hin. contradiction.
Qed.

Lemma parse_price_cell_formats (s : string) (p : Z) :
  parse_price_cell s = Ok p -> format_int p = Ok (show_Z p).
Proof. unfold parse_price_cell. apply py_int_formats. Qed.

End PriceCell.

(** C8, as amended: the cleaning of a price cell drops the rupee sign,
    every comma and every decimal point and reads the digits that are left
    as one integer: a cell written with digits, commas, points and rupee
    signs, at least one digit and 4300 digits at most among them, yields
    the number its digits spell, and a cell of more digits makes [int]
    raise [ValueError].  So "1,68,450" yields 168450 and "₹1,68,450.00"
    yields 16845000. *)
Theorem price_cell_strip_rule (l : list price_char) :
  existsb is_digit l = true ->
  MarketScraper.parse_price_cell (render l)
  = (if digit_count l <=? INT_MAX_STR_DIGITS then Ok (digits_value l 0)
     else Raise (too_many_digits_to_parse (digit_count l)))
  /\ MarketScraper.parse_price_cell "1,68,450" = Ok 168450
  /\ MarketScraper.parse_price_cell "₹1,68,450.00" = Ok 16845000.
Proof.
  intros Hd. split; [| split; reflexivity].
  apply parse_price_cell_render. exact Hd.
Qed.

Lemma price_cell_strip_rule_witness :
  existsb is_digit [Rupee; Digit D1; Comma; Digit D6; Digit D8; Comma;
                    Digit D4; Digit D5; Digit D0; Dot; Digit D0; Digit D0] = true
  /\ MarketScraper.parse_price_cell "₹1,68,450.00" = Ok 16845000.
Proof.
  split; [reflexivity |].
  exact (proj1 (price_cell_strip_rule
                  [Rupee; Digit D1; Comma; Digit D6; Digit D8; Comma;
                   Digit D4; Digit D5; Digit D0; Dot; Digit D0; Digit D0]
                  eq_refl)).
Defined.

(** C8 as stated fails on a long cell: the 4301 digits that are left of a
    cell of 4301 ones are not parsed as an integer, [int] raises
    [ValueError]. *)
Lemma price_cell_of_4301_digits_raises :
  existsb is_digit (repeat (Digit D1) 4301) = true
  /\ MarketScraper.parse_price_cell (render (repeat (Digit D1) 4301))
     = Raise (ValueError "Exceeds the limit (4300 digits) for integer string conversion: value has 4301 digits; use sys.set_int_max_str_digits() to increase the limit")
  /\ forall p, MarketScraper.parse_price_cell (render (repeat (Digit D1) 4301)) <> Ok p.
Proof.
  assert (E : MarketScraper.parse_price_cell (render (repeat (Digit D1) 4301))
              = Raise (ValueError "Exceeds the limit (4300 digits) for integer string conversion: value has 4301 digits; use sys.set_int_max_str_digits() to increase the limit"))
    by (vm_compute; reflexivity).
  split; [vm_compute; reflexivity | split; [exact E |]].
  intros p. rewrite E. discriminate.
Qed.

(** ** Reading the cache *)

Section Load.

Import CacheManager.

Lemma SFcompare_antisym (a b : spec_float) :
  SFcompare b a = option_map CompOpp (SFcompare a b).
Proof.
  destruct a as [sa | sa | | sa ma ea], b as [sb | sb | | sb mb eb];
    simpl; try destruct sa; try destruct sb; try reflexivity;
    rewrite (Z.compare_antisym eb ea); destruct (eb ?= ea); simpl;
    try reflexivity;
    rewrite ?(Pos.compare_cont_antisym ma mb Eq); simpl;
    rewrite ?CompOpp_involutive; reflexivity.
Qed.

(** [x >= n] excludes [x < n]. *)
Lemma float_ge_not_lt (x : spec_float) (n : Z) :
  float_ge_int x n = true -> float_lt_int x n = false.
Proof.
  unfold float_ge_int, float_lt_int, SFleb, SFltb.
  rewrite (SFcompare_antisym (float_of_Z n) x).
  destruct (SFcompare (float_of_Z n) x) as [[| |] |]; simpl; congruence.
Qed.

Lemma load_no_file (ignore_expiry : bool) (w : World) :
  cache_file w = None -> load ignore_expiry w = (Ok PNone, w).
Proof.
  intros H. unfold load, bind, os_path_exists. rewrite H. reflexivity.
Qed.

Lemma load_unreadable (ignore_expiry : bool) (w : World) (e : exc) :
  cache_file w = Some (Unreadable e) -> fst (load ignore_expiry w) = Ok PNone.
Proof.
  intros H. unfold load, bind, os_path_exists, try_except, read_json.
  rewrite H. cbn [negb]. rewrite H. reflexivity.
Qed.

(** What [load] returns for a record that is a JSON object. *)
Lemma load_dict (ignore_expiry : bool) (w : World) (d : list (string * pyval)) :
  cache_file w = Some (Document (PDict d)) ->
  fst (load ignore_expiry w)
  = Ok match py_float_sub (clock w (clock_reads w))
               (match dict_lookup d "timestamp" with Some v => v | None => PInt 0 end) with
       | Ok age =>
           if float_lt_int age CACHE_EXPIRY_SECONDS || ignore_expiry
           then match dict_lookup d "price" with Some v => v | None => PNone end
           else PNone
       | Raise _ => PNone
       end.
Proof.
  intros H. unfold load, bind, os_path_exists, try_except, read_json, time_time, lift.
  rewrite H. cbn [negb]. rewrite H. cbn [py_get].
  destruct (py_float_sub _ _) as [age | e]; [| reflexivity].
  destruct (float_lt_int age CACHE_EXPIRY_SECONDS || ignore_expiry); reflexivity.
Qed.

Lemma load_not_dict (ignore_expiry : bool) (w : World) (v : pyval) :
  cache_file w = Some (Document v) ->
  (forall d, v <> PDict d) ->
  fst (load ignore_expiry w) = Ok PNone.
Proof.
  intros H Hv. unfold load, bind, os_path_exists, try_except, read_json, time_time, lift.
  rewrite H. cbn [negb]. rewrite H.
  destruct v; try reflexivity. exfalso. eapply Hv. reflexivity.
Qed.

End Load.






(** ** The scraper *)

Section Scraper.

Import MarketScraper.

Lemma log_extended_refl (w : World) : log_extended w w.
Proof. exists []. destruct w. unfold set_log. simpl. rewrite app_nil_r. reflexivity. Qed.

Lemma log_extended_trans (w1 w2 w3 : World) :
  log_extended w1 w2 -> log_extended w2 w3 -> log_extended w1 w3.
Proof.
  intros [l1 ->] [l2 ->]. exists (l1 ++ l2)%list.
  unfold set_log. simpl. rewrite app_assoc. reflexivity.
Qed.

(** One turn of the row loop. *)
Lemma scan_rows_step (row : node) (rest : list node) (w : World) :
  scan_rows (row :: rest) w
  = if row_qualifies (find_all "td" row) then
      match parse_price_cell (get_text (nth 1 (find_all "td" row) (Text ""))) with
      | Raise e => (Raise e, w)
      | Ok p =>
          if (MIN_VALID_PRICE <? p) && (p <? MAX_VALID_PRICE)
          then (Ok (Return p), w)
          else scan_rows rest
                 (set_log (log w ++ [(WARNING, "Rejected suspicious price: " ++ show_Z p)]) w)
      end
    else scan_rows rest w.
Proof.
  cbn [scan_rows]. destruct (row_qualifies _); [| reflexivity].
  unfold bind at 1, lift.
  destruct (parse_price_cell _) as [p | e] eqn:E; [| reflexivity].
  unfold bind. rewrite validate_price_run, (parse_price_cell_formats _ _ E).
  destruct ((MIN_VALID_PRICE <? p) && (p <? MAX_VALID_PRICE)); reflexivity.
Qed.

Lemma scan_rows_frame (rows : list node) :
  forall w, log_extended w (snd (scan_rows rows w)).
Proof.
  induction rows as [| row rest IH]; intros w.
  - apply log_extended_refl.
  - rewrite scan_rows_step.
    destruct (row_qualifies _); [| apply IH].
    destruct (parse_price_cell _) as [p | e]; [| apply log_extended_refl].
    destruct ((MIN_VALID_PRICE <? p) && (p <? MAX_VALID_PRICE));
      [apply log_extended_refl |].
    eapply log_extended_trans; [| apply IH]. eexists. reflexivity.
Qed.

Lemma scan_rows_valid (rows : list node) :
  forall w p w',
    scan_rows rows w = (Ok (Return p), w') -> MIN_VALID_PRICE < p < MAX_VALID_PRICE.
Proof.
  induction rows as [| row rest IH]; intros w p w'.
  - discriminate.
  - rewrite scan_rows_step.
    destruct (row_qualifies _); [| apply IH].
    destruct (parse_price_cell _) as [q | e]; [| discriminate].
    destruct ((MIN_VALID_PRICE <? q) && (q <? MAX_VALID_PRICE)) eqn:B; [| apply IH].
    intros H. injection H as -> _.
    apply andb_true_iff in B. rewrite !Z.ltb_lt in B. exact B.
Qed.

(** One turn of the table loop. *)
Lemma scan_tables_step (table : node) (rest : list node) (w : World) :
  scan_tables (table :: rest) w
  = if table_qualifies table then
      match scan_rows (find_all "tr" table) w with
      | (Ok (Return p), w') => (Ok (Return p), w')
      | (Ok Continue, w') => scan_tables rest w'
      | (Raise e, w') => (Raise e, w')
      end
    else scan_tables rest w.
Proof.
  cbn [scan_tables]. destruct (table_qualifies table); [| reflexivity].
  unfold bind at 1. destruct (scan_rows _ w) as [[[| p] | e] w']; reflexivity.
Qed.

Lemma scan_tables_frame (tables : list node) :
  forall w, log_extended w (snd (scan_tables tables w)).
Proof.
  induction tables as [| table rest IH]; intros w.
  - apply log_extended_refl.
  - rewrite scan_tables_step.
    destruct (table_qualifies table); [| apply IH].
    pose proof (scan_rows_frame (find_all "tr" table) w) as F.
    destruct (scan_rows _ w) as [[[| p] | e] w']; simpl in F; try exact F.
    eapply log_extended_trans; [exact F | apply IH].
Qed.

Lemma scan_tables_valid (tables : list node) :
  forall w p w',
    scan_tables tables w = (Ok (Return p), w') -> MIN_VALID_PRICE < p < MAX_VALID_PRICE.
Proof.
  induction tables as [| table rest IH]; intros w p w'.
  - discriminate.
  - rewrite scan_tables_step.
    destruct (table_qualifies table); [| apply IH].
    destruct (scan_rows _ w) as [[[| q] | e] w1] eqn:E.
    + apply IH.
    + intros H. injection H as -> _. exact (scan_rows_valid _ _ _ _ E).
    + discriminate.
Qed.

(** One source tried: the turn never raises, it draws one user agent and
    sends one request, and a price it returns is a validated one. *)
Lemma attempt_run (url : string) (w : World) :
  exists r lines,
    attempt url w = (Ok r, after_attempt url w lines)
    /\ (forall p, r = Return p -> MIN_VALID_PRICE < p < MAX_VALID_PRICE).
Proof.
  unfold attempt, bind at 1, logger at 1.
  unfold try_except, scrape, bind at 1, _get_headers, random_choice, bind at 1,
    random_draw, ret at 1.
  cbn [rng rng_draws set_log set_rng_draws].
  unfold bind at 1, requests_get.
  cbn [network requests_sent set_log set_rng_draws].
  set (ua := nth _ USER_AGENTS "").
  destruct (network w _ url ua) as [e | resp].
  - exists Continue. eexists. split; [| discriminate].
    unfold bind, logger, ret, after_attempt, set_log, set_requests_sent, set_rng_draws.
    cbn. rewrite <- app_assoc. reflexivity.
  - destruct (negb (status_code resp =? 200)).
    + exists Continue. eexists. split; [| discriminate].
      unfold ret, after_attempt, set_log, set_requests_sent, set_rng_draws.
      cbn. reflexivity.
    + match goal with
      | |- context [scan_tables ?t ?w0] =>
          pose proof (scan_tables_frame t w0) as F;
          pose proof (scan_tables_valid t w0) as V;
          destruct (scan_tables t w0) as [[r | e] w'] eqn:E
      end; destruct F as [l F]; simpl in F; subst w'.
      * exists r. eexists. split.
        -- unfold after_attempt, set_log, set_requests_sent, set_rng_draws.
           cbn. rewrite <- app_assoc. reflexivity.
        -- intros p ->. eapply V. reflexivity.
      * exists Continue. eexists. split; [| discriminate].
        unfold bind, logger, ret, after_attempt, set_log, set_requests_sent, set_rng_draws.
        cbn. rewrite <- !app_assoc. reflexivity.
Qed.

Lemma fetch_from_step (url : string) (rest : list string) (w : World) :
  fetch_from (url :: rest) w
  = match attempt url w with
    | (Ok (Return p), w') => (Ok (Some p), w')
    | (Ok Continue, w') => fetch_from rest w'
    | (Raise e, w') => (Raise e, w')
    end.
Proof.
  cbn [fetch_from]. unfold bind at 1.
  destruct (attempt url w) as [[[| p] | e] w']; reflexivity.
Qed.



(** The scraper reads the network and writes the log; the cache file and
    the threads are as they were. *)
Lemma fetch_from_keeps_cache (urls : list string) :
  forall w,
    cache_file (snd (fetch_from urls w)) = cache_file w
    /\ threads (snd (fetch_from urls w)) = threads w.
Proof.
  induction urls as [| url rest IH]; intros w.
  - split; reflexivity.
  - rewrite fetch_from_step.
    destruct (attempt_run url w) as ([| q] & lines & E & _); rewrite E.
    + destruct (IH (after_attempt url w lines)) as [H1 H2].
      rewrite H1, H2. split; reflexivity.
    + split; reflexivity.
Qed.





End Scraper.






(** ** Region prices *)

Section Regions.

Import GoldService.

Lemma insert_by_name_perm (e : state_entry) (l : list state_entry) :
  Permutation (insert_by_name e l) (e :: l).
Proof.
  induction l as [| y l' IH]; simpl; [apply Permutation_refl |].
  destruct (name y <? name e)%string; [| apply Permutation_refl].
  eapply Permutation_trans; [apply perm_skip, IH | apply perm_swap].
Qed.

Lemma sort_by_name_perm (l : list state_entry) : Permutation (sort_by_name l) l.
Proof.
  induction l as [| e l' IH]; simpl; [apply perm_nil |].
  eapply Permutation_trans; [apply insert_by_name_perm | apply perm_skip, IH].
Qed.

Lemma insert_by_name_names (e : state_entry) (l : list state_entry) :
  map name (insert_by_name e l) = insert_name (name e) (map name l).
Proof.
  induction l as [| y l' IH]; simpl; [reflexivity |].
  destruct (name y <? name e)%string; simpl; [rewrite IH |]; reflexivity.
Qed.

Lemma sort_by_name_names (l : list state_entry) :
  map name (sort_by_name l) = sort_names (map name l).
Proof.
  induction l as [| e l' IH]; simpl; [reflexivity |].
  rewrite insert_by_name_names, IH. reflexivity.
Qed.

Lemma distinct_NoDup (l : list string) : distinct l = true -> NoDup l.
Proof.
  induction l as [| a r IH]; simpl; intros H; constructor;
    apply andb_true_iff in H as [Ha Hr].
  - intros Hin. apply negb_true_iff in Ha.
    assert (existsb (String.eqb a) r = true); [| congruence].
    apply existsb_exists. exists a. split; [exact Hin | apply String.eqb_refl].
  - exact (IH Hr).
Qed.

Lemma ascending_Sorted (l : list string) : ascending l = true -> Sorted name_before l.
Proof.
  induction l as [| a r IH]; intros H; constructor.
  - apply IH. destruct r; [reflexivity |].
    simpl in H. apply andb_true_iff in H. tauto.
  - destruct r; constructor. simpl in H. apply andb_true_iff in H.
    unfold name_before. tauto.
Qed.

(** What the loop over the regions builds, in the order of the map. *)
Lemma region_loop_entries (base24 base22 : Z) (offsets : list (string * Z)) :
  offsets_scale offsets = true ->
  exists res,
    region_loop base24 base22 offsets = Ok res
    /\ map name res = map fst offsets
    /\ Forall (fun e => exists offset off22,
                 In (name e, offset) offsets
                 /\ scaled offset (float_literal 9 10) = Ok off22
                 /\ p24 e = base24 + offset
                 /\ p22 e = base22 + off22) res.
Proof.
  induction offsets as [| [n offset] rest IH]; intros H.
  - exists []. repeat split. constructor.
  - unfold offsets_scale in H. simpl in H. apply andb_true_iff in H as [Ho Hr].
    destruct (IH Hr) as (tl & E & Hn & Hall).
    cbn [region_loop]. unfold rbind at 1.
    destruct (scaled offset (float_literal 9 10)) as [off22 |] eqn:Es; [| discriminate].
    rewrite E. cbn [rbind].
    eexists. split; [reflexivity | split].
    + simpl. rewrite Hn. reflexivity.
    + constructor.
      * exists offset, off22. cbn [name p24 p22]. repeat split; auto. left. reflexivity.
      * eapply Forall_impl; [| exact Hall].
        intros e (o & k & Hin & Hk & H24 & H22).
        exists o, k. repeat split; auto. right. exact Hin.
Qed.

End Regions.

(** C10, as amended: for every base price for which [int(base * 0.9166)]
    evaluates, to [b22] say, the region prices are one entry per region of
    [STATE_OFFSETS], in ascending order of the region name; the 24-karat
    price of an entry is the base price plus the offset of its region and
    its 22-karat price is [b22] plus [int(offset * 0.9)]. *)
Theorem calculate_all_states_entries :
  forall (base_price_24k b22 : Z),
    GoldService.scaled base_price_24k (float_literal 9166 10000) = Ok b22 ->
    exists res,
      GoldService.calculate_all_states base_price_24k = Ok res
      /\ Permutation (map GoldService.name res) (map fst STATE_OFFSETS)
      /\ NoDup (map GoldService.name res)
      /\ List.length res = List.length STATE_OFFSETS
      /\ Sorted name_before (map GoldService.name res)
      /\ (forall e, In e res ->
            exists offset off22,
              In (GoldService.name e, offset) STATE_OFFSETS
              /\ GoldService.scaled offset (float_literal 9 10) = Ok off22
              /\ GoldService.p24 e = base_price_24k + offset
              /\ GoldService.p22 e = b22 + off22).
Proof.
  intros base b22 Hb.
  destruct (region_loop_entries base b22 STATE_OFFSETS) as (raw & E & Hn & Hall);
    [vm_compute; reflexivity |].
  exists (GoldService.sort_by_name raw).
  assert (Hnames : map GoldService.name (GoldService.sort_by_name raw)
                   = sort_names (map fst STATE_OFFSETS))
    by (rewrite sort_by_name_names, Hn; reflexivity).
  split; [| split; [| split; [| split; [| split]]]].
  - unfold GoldService.calculate_all_states. rewrite Hb. cbn [rbind].
    rewrite E. reflexivity.
  - rewrite <- Hn. apply Permutation_map, sort_by_name_perm.
  - rewrite Hnames. apply distinct_NoDup. vm_compute. reflexivity.
  - rewrite <- (length_map GoldService.name), Hnames. vm_compute. reflexivity.
  - rewrite Hnames. apply ascending_Sorted. vm_compute. reflexivity.
  - intros e He. rewrite Forall_forall in Hall. apply Hall.
    eapply Permutation_in; [apply sort_by_name_perm | exact He].
Qed.

Lemma calculate_all_states_entries_witness :
  exists res,
    GoldService.calculate_all_states 150000 = Ok res
    /\ Permutation (map GoldService.name res) (map fst STATE_OFFSETS)
    /\ Sorted name_before (map GoldService.name res).
Proof.
  destruct (calculate_all_states_entries 150000 137490 eq_refl)
    as (res & E & Hperm & _ & _ & Hsorted & _).
  exists res. split; [exact E | split; [exact Hperm | exact Hsorted]].
Defined.

(** C10 as stated fails for a base price too large for a float: the
    product [base * 0.9166] raises and no entry is returned. *)
Lemma calculate_all_states_overflows :
  GoldService.calculate_all_states (2 ^ 1024)
  = Raise (OverflowError "int too large to convert to float").
Proof. vm_compute. reflexivity. Qed.

(** ** The price service *)

Section Service.

Import GoldService.

(** The class [MarketScraper] has no attribute of the name the service
    gives as thread target. *)
Lemma thread_target_is_missing :
  MarketScraper.getattr "fetch_goodreturns_and_save"
  = raise (AttributeError
             "type object 'MarketScraper' has no attribute 'fetch_goodreturns_and_save'").
Proof. reflexivity. Qed.

Lemma SFsub_zero (x : spec_float) : SFsub prec emax x (S754_zero false) = x.
Proof. destruct x as [[|] | | |]; reflexivity. Qed.

(** Without a cache file the service raises as soon as the clock is past
    the freshness window, and no thread is started. *)
Lemma get_master_price_without_cache (w : World) :
  cache_file w = None ->
  float_gt_int (clock w (clock_reads w)) CACHE_EXPIRY_SECONDS = true ->
  get_master_price w
  = (Raise (AttributeError
              "type object 'MarketScraper' has no attribute 'fetch_goodreturns_and_save'"),
     set_log (log w ++ [(INFO, "Cache stale. Triggering background update...")])
       (set_clock_reads (S (clock_reads w)) w)).
Proof.
  intros Hfile Hstale. unfold get_master_price.
  unfold bind at 1. rewrite (load_no_file true w Hfile).
  unfold bind at 1, os_path_exists. rewrite Hfile.
  unfold bind at 1, ret at 1. unfold bind at 1, time_time.
  cbn [truthy]. unfold bind at 1, ret at 1. unfold bind at 1, lift.
  cbn [py_float_sub]. change (py_float_of_int 0) with (Ok (S754_zero false)).
  cbn [rbind]. rewrite SFsub_zero, Hstale.
  unfold bind at 1. unfold bind at 1, logger. unfold bind at 1.
  rewrite thread_target_is_missing. reflexivity.
Qed.

End Service.

(** With a fresh record the service returns the cached price and starts
    no thread (scenario 2 of the specification). *)
Example get_master_price_fresh_record :
  fst (GoldService.get_master_price fresh_cache) = Ok (PInt 168000)
  /\ threads (snd (GoldService.get_master_price fresh_cache)) = [].
Proof. split; vm_compute; reflexivity. Qed.

(** [save] followed by [load] returns the saved price. *)
Example save_then_load :
  fst (CacheManager.load true (snd (CacheManager.save 170500 stale_cache)))
  = Ok (PInt 170500).
Proof. vm_compute. reflexivity. Qed.

(** C1 does not hold of the code: on a first start, with no cache file,
    [get_master_price] raises [AttributeError] instead of returning the
    fail-safe price; it raises the same error when the record is stale, and
    the decoding error of a corrupt file reaches the caller as well.  No
    thread is started in any of the three runs. *)
Theorem get_master_price_raises_when_not_fresh :
  fst (GoldService.get_master_price fresh_install)
  = Raise (AttributeError
             "type object 'MarketScraper' has no attribute 'fetch_goodreturns_and_save'")
  /\ fst (GoldService.get_master_price stale_cache)
     = Raise (AttributeError
                "type object 'MarketScraper' has no attribute 'fetch_goodreturns_and_save'")
  /\ fst (GoldService.get_master_price corrupt_cache)
     = Raise (JSONDecodeError "Expecting value: line 1 column 1 (char 0)")
  /\ threads (snd (GoldService.get_master_price fresh_install)) = []
  /\ threads (snd (GoldService.get_master_price stale_cache)) = []
  /\ threads (snd (GoldService.get_master_price corrupt_cache)) = [].
Proof.
  split; [rewrite (get_master_price_without_cache fresh_install eq_refl eq_refl);
          reflexivity |].
  repeat split; vm_compute; reflexivity.
Qed.

(** C2 does not hold of the code: in scenario 3 the scraper obtains the
    validated price 170500 and returns it, and the cache file is what it
    was; a later [load] still answers 165000.  The service itself raises
    on the stale record and starts no thread. *)
Theorem validated_price_is_never_persisted :
  fst (MarketScraper.fetch_goodreturns scenario3) = Ok (Some 170500)
  /\ cache_file (snd (MarketScraper.fetch_goodreturns scenario3))
     = Some (cached_record 165000 1769992800)
  /\ fst (CacheManager.load true (snd (MarketScraper.fetch_goodreturns scenario3)))
     = Ok (PInt 165000)
  /\ fst (GoldService.get_master_price scenario3)
     = Raise (AttributeError
                "type object 'MarketScraper' has no attribute 'fetch_goodreturns_and_save'")
  /\ threads (snd (GoldService.get_master_price scenario3)) = [].
Proof.
  split; [vm_compute; reflexivity |].
  split; [exact (proj1 (fetch_from_keeps_cache MarketScraper.sources scenario3)) |].
  repeat split; vm_compute; reflexivity.
Qed.


(** * Further properties of the code *)

(** ** Effects of the service layer *)

Section Effects.

Lemma never_raises_ret {A} (a : A) : never_raises (ret a).
Proof. intros w. exists a. reflexivity. Qed.

Lemma never_raises_bind {A B} (m : M A) (k : A -> M B) :
  never_raises m -> (forall a, never_raises (k a)) -> never_raises (bind m k).
Proof.
  intros Hm Hk w. unfold bind. destruct (Hm w) as [a Ea].
  destruct (m w) as [r w1]. simpl in Ea. subst r. apply Hk.
Qed.

Lemma never_raises_try {A} (body : M A) (handler : exc -> M A) :
  (forall e, never_raises (handler e)) -> never_raises (try_except body handler).
Proof.
  intros Hh w. unfold try_except. destruct (body w) as [[a | e] w1].
  - exists a. reflexivity.
  - apply Hh.
Qed.

Lemma never_raises_logger (l : level) (msg : string) : never_raises (logger l msg).
Proof. intros w. exists tt. reflexivity. Qed.

Lemma quiet_ret {A} (a : A) : reads_and_logs_only (ret a).
Proof. intros w. exists (clock_reads w), (log w). destruct w. reflexivity. Qed.

Lemma quiet_raise {A} (e : exc) : reads_and_logs_only (@raise A e).
Proof. intros w. exists (clock_reads w), (log w). destruct w. reflexivity. Qed.

Lemma quiet_lift {A} (r : result A) : reads_and_logs_only (lift r).
Proof. intros w. exists (clock_reads w), (log w). destruct w. reflexivity. Qed.

Lemma quiet_bind {A B} (m : M A) (k : A -> M B) :
  reads_and_logs_only m -> (forall a, reads_and_logs_only (k a)) ->
  reads_and_logs_only (bind m k).
Proof.
  intros Hm Hk w. unfold bind. destruct (Hm w) as (k1 & l1 & E1).
  destruct (m w) as [[a | e] w1]; simpl in E1; subst w1.
  - destruct (Hk a (set_log l1 (set_clock_reads k1 w))) as (k2 & l2 & E2).
    exists k2, l2. rewrite E2. reflexivity.
  - exists k1, l1. reflexivity.
Qed.

Lemma quiet_try {A} (body : M A) (handler : exc -> M A) :
  reads_and_logs_only body -> (forall e, reads_and_logs_only (handler e)) ->
  reads_and_logs_only (try_except body handler).
Proof.
  intros Hb Hh w. unfold try_except. destruct (Hb w) as (k1 & l1 & E1).
  destruct (body w) as [[a | e] w1]; simpl in E1; subst w1.
  - exists k1, l1. reflexivity.
  - destruct (Hh e (set_log l1 (set_clock_reads k1 w))) as (k2 & l2 & E2).
    exists k2, l2. rewrite E2. reflexivity.
Qed.

Lemma quiet_logger (l : level) (msg : string) : reads_and_logs_only (logger l msg).
Proof.
  intros w. exists (clock_reads w), (log w ++ [(l, msg)])%list. destruct w. reflexivity.
Qed.

Lemma quiet_time : reads_and_logs_only time_time.
Proof. intros w. exists (S (clock_reads w)), (log w). destruct w. reflexivity. Qed.

Lemma quiet_exists : reads_and_logs_only os_path_exists.
Proof. intros w. exists (clock_reads w), (log w). destruct w. reflexivity. Qed.

Lemma quiet_read_json : reads_and_logs_only read_json.
Proof.
  intros w. exists (clock_reads w), (log w). unfold read_json.
  destruct w as [[[e | v] |] ? ? ? ? ? ? ? ? ? ? ? ?]; reflexivity.
Qed.

Lemma quiet_load (ignore_expiry : bool) :
  reads_and_logs_only (CacheManager.load ignore_expiry).
Proof.
  unfold CacheManager.load.
  apply quiet_bind; [apply quiet_exists | intros there].
  destruct (negb there); [apply quiet_ret |].
  apply quiet_try.
  - apply quiet_bind; [apply quiet_read_json | intros data].
    apply quiet_bind; [apply quiet_time | intros now].
    apply quiet_bind; [apply quiet_lift | intros stamp].
    apply quiet_bind; [apply quiet_lift | intros age].
    destruct (_ || _); [apply quiet_lift | apply quiet_ret].
  - intros e. apply quiet_bind; [apply quiet_logger | intros _; apply quiet_ret].
Qed.

Lemma never_raises_load (ignore_expiry : bool) :
  never_raises (CacheManager.load ignore_expiry).
Proof.
  unfold CacheManager.load.
  apply never_raises_bind; [intros w; eexists; reflexivity | intros there].
  destruct (negb there); [apply never_raises_ret |].
  apply never_raises_try. intros e.
  apply never_raises_bind; [apply never_raises_logger | intros _; apply never_raises_ret].
Qed.

Lemma quiet_get_master_price : reads_and_logs_only GoldService.get_master_price.
Proof.
  unfold GoldService.get_master_price.
  apply quiet_bind; [apply quiet_load | intros cached].
  apply quiet_bind; [apply quiet_exists | intros there].
  apply quiet_bind; [destruct there; [apply quiet_read_json | apply quiet_ret] | intros data].
  apply quiet_bind; [apply quiet_time | intros now].
  apply quiet_bind; [destruct (truthy data); [apply quiet_lift | apply quiet_ret] | intros stamp].
  apply quiet_bind; [apply quiet_lift | intros age].
  apply quiet_bind; [| intros _; apply quiet_ret].
  destruct (float_gt_int age CACHE_EXPIRY_SECONDS); [| apply quiet_ret].
  apply quiet_bind; [apply quiet_logger | intros _].
  rewrite thread_target_is_missing.
  intros w. exists (clock_reads w), (log w). destruct w. reflexivity.
Qed.

End Effects.

Section ServiceRuns.

Import GoldService.

(** What a computation of that kind leaves untouched. *)
Lemma quiet_frame {A} (m : M A) (w : World) :
  reads_and_logs_only m ->
  cache_file (snd (m w)) = cache_file w
  /\ threads (snd (m w)) = threads w
  /\ requests_sent (snd (m w)) = requests_sent w
  /\ rng_draws (snd (m w)) = rng_draws w.
Proof.
  intros H. destruct (H w) as (k & l & E). rewrite E. repeat split.
Qed.

Lemma bind_ok_inv {A B} (m : M A) (k : A -> M B) (w w' : World) (b : B) :
  bind m k w = (Ok b, w') ->
  exists a w1, m w = (Ok a, w1) /\ k a w1 = (Ok b, w').
Proof.
  unfold bind. destruct (m w) as [[a | e] w1]; [| discriminate].
  intros H. exists a, w1. split; [reflexivity | exact H].
Qed.

Lemma py_float_sub_defined (x y : spec_float) (v : pyval) (a : spec_float) :
  py_float_sub x v = Ok a -> exists b, py_float_sub y v = Ok b.
Proof.
  destruct v; simpl; try discriminate; try (intros _; eexists; reflexivity).
  unfold rbind. destruct (py_float_of_int z); [| discriminate].
  intros _. eexists. reflexivity.
Qed.

(** Reading a record that is a JSON object reads the clock once. *)
Lemma load_dict_world (ignore_expiry : bool) (w : World) (d : list (string * pyval)) :
  cache_file w = Some (Document (PDict d)) ->
  exists lines,
    snd (CacheManager.load ignore_expiry w)
    = set_log lines (set_clock_reads (S (clock_reads w)) w).
Proof.
  intros H.
  unfold CacheManager.load, bind, os_path_exists, try_except, read_json, time_time, lift.
  rewrite H. cbn [negb]. rewrite H. cbn [py_get].
  destruct (py_float_sub _ _) as [age | e].
  - exists (log w). destruct (_ || ignore_expiry); destruct w; reflexivity.
  - eexists. unfold logger, ret. reflexivity.
Qed.

(** The run of the service on a record that is a JSON object: the age is
    computed from the second reading of the clock. *)
Lemma get_master_price_dict (w : World) (d : list (string * pyval)) :
  cache_file w = Some (Document (PDict d)) ->
  fst (get_master_price w)
  = match py_float_sub (clock w (S (clock_reads w))) (stamp_of d) with
    | Raise e => Raise e
    | Ok age =>
        if float_gt_int age CACHE_EXPIRY_SECONDS
        then Raise (AttributeError
                      "type object 'MarketScraper' has no attribute 'fetch_goodreturns_and_save'")
        else match fst (CacheManager.load true w) with
             | Ok cached =>
                 Ok (if truthy cached then cached else PInt FAILSAFE_ANCHOR_PRICE)
             | Raise e => Raise e
             end
    end.
Proof.
  intros H. unfold get_master_price. unfold bind at 1.
  destruct (never_raises_load true w) as [cached Ec].
  destruct (load_dict_world true w d H) as [lines Ew].
  destruct (CacheManager.load true w) as [r w1]. simpl in Ec, Ew. subst r w1.
  unfold bind at 1, os_path_exists. cbn [cache_file set_log set_clock_reads].
  rewrite H. unfold bind at 1, read_json. cbn [cache_file set_log set_clock_reads].
  rewrite H. unfold bind at 1, time_time.
  cbn [clock clock_reads set_log set_clock_reads].
  assert (Es : forall w0,
             (if truthy (PDict d)
              then lift (py_get (PDict d) "timestamp" (PInt 0))
              else ret (PInt 0)) w0 = (Ok (stamp_of d), w0)).
  { intros w0. destruct d as [| kv d']; reflexivity. }
  unfold bind at 1. rewrite Es. unfold bind at 1, lift.
  destruct (py_float_sub _ (stamp_of d)) as [age | e]; [| reflexivity].
  unfold bind at 1.
  destruct (float_gt_int age CACHE_EXPIRY_SECONDS); [| reflexivity].
  unfold bind at 1, logger. unfold bind at 1.
  rewrite thread_target_is_missing. reflexivity.
Qed.

End ServiceRuns.

(** X1: [load] never raises, whatever the state of the file and the value
    of [ignore_expiry]; it leaves the cache file, the threads, the requests
    and the random generator as they were; without a file it returns [None]
    and does nothing at all. *)
Theorem load_never_raises_nor_writes :
  forall (ignore_expiry : bool) (w : World),
    (exists v, fst (CacheManager.load ignore_expiry w) = Ok v)
    /\ cache_file (snd (CacheManager.load ignore_expiry w)) = cache_file w
    /\ threads (snd (CacheManager.load ignore_expiry w)) = threads w
    /\ requests_sent (snd (CacheManager.load ignore_expiry w)) = requests_sent w
    /\ (cache_file w = None -> CacheManager.load ignore_expiry w = (Ok PNone, w)).
Proof.
  intros ig w.
  destruct (quiet_frame (CacheManager.load ig) w (quiet_load ig)) as (H1 & H2 & H3 & _).
  split; [apply never_raises_load |].
  split; [exact H1 | split; [exact H2 | split; [exact H3 |]]].
  apply load_no_file.
Qed.

Lemma load_never_raises_nor_writes_witness :
  CacheManager.load false fresh_install = (Ok PNone, fresh_install).
Proof.
  exact (proj2 (proj2 (proj2 (proj2 (load_never_raises_nor_writes false fresh_install))))
           eq_refl).
Defined.

(** X2: what [load(ignore_expiry=False)] returns other than [None],
    [load(ignore_expiry=True)] returns as well from the same world. *)
Theorem load_strict_result_is_lenient_result :
  forall (w : World) (v : pyval),
    fst (CacheManager.load false w) = Ok v ->
    v <> PNone ->
    fst (CacheManager.load true w) = Ok v.
Proof.
  intros w v Hv Hne.
  destruct (cache_file w) as [[e | doc] |] eqn:Hfile.
  - rewrite (load_unreadable false w e Hfile) in Hv. congruence.
  - destruct doc as [| b | z | f | s | l | d];
      try (rewrite (load_not_dict false w _ Hfile) in Hv;
           [congruence | intros d'; discriminate]).
    rewrite (load_dict false w d Hfile) in Hv. rewrite (load_dict true w d Hfile).
    destruct (py_float_sub _ _) as [age | e]; [| congruence].
    rewrite orb_false_r in Hv. rewrite orb_true_r.
    destruct (float_lt_int age CACHE_EXPIRY_SECONDS); congruence.
  - rewrite (load_no_file false w Hfile) in Hv. simpl in Hv. congruence.
Qed.

Lemma load_strict_result_is_lenient_result_witness :
  fst (CacheManager.load true fresh_cache) = Ok (PInt 168000).
Proof.
  apply (load_strict_result_is_lenient_result fresh_cache (PInt 168000)).
  - vm_compute. reflexivity.
  - discriminate.
Defined.

(** ** Writing the cache *)

(** The run of [save]: the clock is read once, then either the record is
    written and the success logged, or the failure is logged. *)
Lemma save_run (price : Z) (w : World) :
  CacheManager.save price w
  = (Ok tt,
     match disk_fault w with
     | Some e => save_failed e w
     | None =>
         match write_fault w with
         | Some (e, remains) => set_cache_file (Some remains) (save_failed e w)
         | None =>
             match format_int price with
             | Raise e => set_cache_file (Some cut_at_price) (save_failed e w)
             | Ok text =>
                 set_log (log w ++ [(INFO, "Cache updated: " ++ text)])
                   (set_cache_file
                      (Some (Document
                               (PDict [("price", PInt price);
                                       ("timestamp", PFloat (clock w (clock_reads w)));
                                       ("human_time",
                                        PStr (now_strftime w "%Y-%m-%d %H:%M:%S"))])))
                      (set_clock_reads (S (clock_reads w)) w))
             end
         end
     end).
Proof.
  unfold CacheManager.save, try_except.
  unfold bind at 1, time_time. unfold bind at 1. unfold bind at 1, write_record.
  cbn [disk_fault write_fault set_clock_reads].
  destruct (disk_fault w) as [e |]; [reflexivity |].
  destruct (write_fault w) as [[e remains] |]; [reflexivity |].
  destruct (format_int price) as [text | e] eqn:F; [| reflexivity].
  unfold bind, lift, logger. reflexivity.
Qed.

(** X3: [save] never raises and logs every failure as an error.  When the
    file cannot be opened the cache file is what it was.  When the file
    was opened and writing or closing it fails, the file holds what the
    failure left of it.  When the price has more than 4300 digits the
    record is cut before the price, and a later [load] finds no price in
    it. *)
Theorem save_swallows_write_failure :
  forall (price : Z) (w : World),
    fst (CacheManager.save price w) = Ok tt
    /\ (forall e,
          disk_fault w = Some e ->
          cache_file (snd (CacheManager.save price w)) = cache_file w
          /\ log (snd (CacheManager.save price w))
             = (log w ++ [(ERROR, ("Failed to write cache: " ++ exc_str e)%string)])%list)
    /\ (forall e remains,
          disk_fault w = None ->
          write_fault w = Some (e, remains) ->
          cache_file (snd (CacheManager.save price w)) = Some remains
          /\ log (snd (CacheManager.save price w))
             = (log w ++ [(ERROR, ("Failed to write cache: " ++ exc_str e)%string)])%list)
    /\ (disk_fault w = None ->
        write_fault w = None ->
        int_str_limit <= Z.abs price ->
        snd (CacheManager.save price w)
        = set_cache_file (Some cut_at_price) (save_failed too_many_digits_to_format w)
        /\ forall ignore_expiry,
             fst (CacheManager.load ignore_expiry (snd (CacheManager.save price w)))
             = Ok PNone).
Proof.
  intros price w. rewrite save_run. cbn [fst snd].
  split; [reflexivity |]. split; [| split].
  - intros e He. rewrite He. split; reflexivity.
  - intros e remains Hd Hw. rewrite Hd, Hw. split; reflexivity.
  - intros Hd Hw Hp. rewrite Hd, Hw, (format_int_long price Hp).
    split; [reflexivity |].
    intros ig. erewrite load_unreadable by reflexivity. reflexivity.
Qed.

Lemma save_swallows_write_failure_witness :
  (cache_file (snd (CacheManager.save 170500 read_only_disk)) = None
   /\ log (snd (CacheManager.save 170500 read_only_disk))
      = [(ERROR,
          "Failed to write cache: [Errno 30] Read-only file system: 'gold_cache.json'")])
  /\ (cache_file (snd (CacheManager.save 170500 full_disk))
      = Some (Unreadable (JSONDecodeError "Expecting value: line 1 column 1 (char 0)"))
      /\ log (snd (CacheManager.save 170500 full_disk))
         = [(ERROR, "Failed to write cache: [Errno 28] No space left on device")])
  /\ fst (CacheManager.load true (snd (CacheManager.save int_str_limit stale_cache)))
     = Ok PNone.
Proof.
  split; [| split].
  - exact (proj1 (proj2 (save_swallows_write_failure 170500 read_only_disk)) _ eq_refl).
  - exact (proj1 (proj2 (proj2 (save_swallows_write_failure 170500 full_disk)))
             _ _ eq_refl eq_refl).
  - refine (proj2 (proj2 (proj2 (proj2 (save_swallows_write_failure
                                           int_str_limit stale_cache)))
                     eq_refl eq_refl _) true).
    pose proof int_str_limit_pos as H. lia.
Defined.

(** X4: a price of 4300 digits at most, saved on a disk that takes the
    write, is read back: the record written is well formed,
    [load(ignore_expiry=True)] returns the price, and
    [load(ignore_expiry=False)] returns it when the clock, read again, is
    less than 3600 seconds past the reading [save] stored. *)
Theorem save_then_load_round_trip :
  forall (price : Z) (w : World),
    disk_fault w = None ->
    write_fault w = None ->
    Z.abs price < int_str_limit ->
    (exists c, cache_file (snd (CacheManager.save price w)) = Some c
               /\ well_formed c = true)
    /\ fst (CacheManager.load true (snd (CacheManager.save price w))) = Ok (PInt price)
    /\ (float_lt_int
          (SFsub prec emax (clock w (S (clock_reads w))) (clock w (clock_reads w)))
          CACHE_EXPIRY_SECONDS = true ->
        fst (CacheManager.load false (snd (CacheManager.save price w))) = Ok (PInt price))
    /\ log (snd (CacheManager.save price w))
       = (log w ++ [(INFO, ("Cache updated: " ++ show_Z price)%string)])%list.
Proof.
  intros price w Hd Hw Hp.
  rewrite save_run, Hd, Hw, (format_int_short price Hp). cbn [snd].
  split; [eexists; split; reflexivity |].
  split; [| split].
  - erewrite load_dict by reflexivity. cbn. rewrite orb_true_r. reflexivity.
  - intros Hlt. erewrite load_dict by reflexivity. cbn.
    cbn in Hlt. rewrite Hlt. reflexivity.
  - reflexivity.
Qed.

Lemma save_then_load_round_trip_witness :
  fst (CacheManager.load true (snd (CacheManager.save 170500 stale_cache)))
  = Ok (PInt 170500).
Proof.
  refine (proj1 (proj2 (save_then_load_round_trip 170500 stale_cache eq_refl eq_refl _))).
  apply Z.ltb_lt. vm_compute. reflexivity.
Defined.

(** ** The price service, in general *)

(** X5: [get_master_price] starts no thread, sends no request, draws no
    random number and leaves the cache file as it was, in every world and
    whether it returns or raises. *)
Theorem get_master_price_starts_no_refresh :
  forall (w : World),
    threads (snd (GoldService.get_master_price w)) = threads w
    /\ requests_sent (snd (GoldService.get_master_price w)) = requests_sent w
    /\ cache_file (snd (GoldService.get_master_price w)) = cache_file w
    /\ rng_draws (snd (GoldService.get_master_price w)) = rng_draws w.
Proof.
  intros w.
  destruct (quiet_frame GoldService.get_master_price w quiet_get_master_price)
    as (H1 & H2 & H3 & H4).
  repeat split; assumption.
Qed.

(** X6: when [get_master_price] returns, the value is a true one, never
    [None] nor 0: it is what [load(ignore_expiry=True)] gave, or the
    fail-safe anchor. *)
Theorem get_master_price_result_is_truthy :
  forall (w w' : World) (v : pyval),
    GoldService.get_master_price w = (Ok v, w') ->
    truthy v = true
    /\ v <> PNone
    /\ (fst (CacheManager.load true w) = Ok v \/ v = PInt FAILSAFE_ANCHOR_PRICE).
Proof.
  intros w w' v H. unfold GoldService.get_master_price in H.
  apply bind_ok_inv in H as (cached & w1 & Hload & H).
  apply bind_ok_inv in H as (there & w2 & _ & H).
  apply bind_ok_inv in H as (data & w3 & _ & H).
  apply bind_ok_inv in H as (now & w4 & _ & H).
  apply bind_ok_inv in H as (stamp & w5 & _ & H).
  apply bind_ok_inv in H as (age & w6 & _ & H).
  apply bind_ok_inv in H as (u & w7 & _ & H).
  unfold ret in H. injection H as Hv _. rewrite Hload. cbn [fst].
  destruct (truthy cached) eqn:T; subst v.
  - split; [exact T | split; [| left; reflexivity]].
    intros ->. discriminate.
  - split; [reflexivity | split; [discriminate | right; reflexivity]].
Qed.

Lemma get_master_price_result_is_truthy_witness :
  truthy (PInt 168000) = true.
Proof.
  exact (proj1 (get_master_price_result_is_truthy fresh_cache
                  (snd (GoldService.get_master_price fresh_cache)) (PInt 168000)
                  eq_refl)).
Defined.

(** X7: on a record that is a JSON object with an integer price and whose
    age, at the second reading of the clock, is not above 3600 seconds,
    [get_master_price] returns the cached price; a cached price of 0
    counts as absent and the fail-safe anchor is returned instead. *)
Theorem get_master_price_serves_record_in_window :
  forall (w : World) (d : list (string * pyval)) (p : Z) (age : spec_float),
    cache_file w = Some (Document (PDict d)) ->
    dict_lookup d "price" = Some (PInt p) ->
    py_float_sub (clock w (S (clock_reads w))) (stamp_of d) = Ok age ->
    float_gt_int age CACHE_EXPIRY_SECONDS = false ->
    fst (GoldService.get_master_price w)
    = Ok (PInt (if p =? 0 then FAILSAFE_ANCHOR_PRICE else p)).
Proof.
  intros w d p age Hfile Hprice Hage Hnot.
  rewrite (get_master_price_dict w d Hfile), Hage, Hnot.
  rewrite (load_dict true w d Hfile). fold (stamp_of d).
  destruct (py_float_sub_defined _ (clock w (clock_reads w)) _ _ Hage) as [age1 E1].
  rewrite E1, orb_true_r, Hprice. cbn [truthy].
  destruct (p =? 0); reflexivity.
Qed.

Lemma get_master_price_serves_record_in_window_witness :
  fst (GoldService.get_master_price fresh_cache) = Ok (PInt 168000)
  /\ fst (GoldService.get_master_price
            (with_cache (cached_record 0 1769999000) fresh_install))
     = Ok (PInt FAILSAFE_ANCHOR_PRICE).
Proof.
  split.
  - refine (get_master_price_serves_record_in_window fresh_cache _ 168000 _
              eq_refl eq_refl eq_refl _).
    vm_compute. reflexivity.
  - refine (get_master_price_serves_record_in_window
              (with_cache (cached_record 0 1769999000) fresh_install) _ 0 _
              eq_refl eq_refl eq_refl _).
    vm_compute. reflexivity.
Defined.

(** X8: the two freshness tests disagree at the bound.  For a record whose
    age is at least 3600 seconds at the first reading of the clock and not
    above 3600 at the second, as for an age of exactly 3600,
    [load(ignore_expiry=False)] returns [None], and [get_master_price]
    returns the cached price without going for a refresh. *)
Theorem freshness_tests_disagree_at_the_bound :
  forall (w : World) (d : list (string * pyval)) (p : Z) (age1 age2 : spec_float),
    cache_file w = Some (Document (PDict d)) ->
    dict_lookup d "price" = Some (PInt p) ->
    p <> 0 ->
    py_float_sub (clock w (clock_reads w)) (stamp_of d) = Ok age1 ->
    float_ge_int age1 CACHE_EXPIRY_SECONDS = true ->
    py_float_sub (clock w (S (clock_reads w))) (stamp_of d) = Ok age2 ->
    float_gt_int age2 CACHE_EXPIRY_SECONDS = false ->
    fst (CacheManager.load false w) = Ok PNone
    /\ GoldService.get_master_price w
       = (Ok (PInt p), set_clock_reads (S (S (clock_reads w))) w).
Proof.
  intros w d p age1 age2 Hfile Hprice Hp H1 Hge H2 Hnot. split.
  - rewrite (load_dict false w d Hfile). fold (stamp_of d).
    rewrite H1, (float_ge_not_lt _ _ Hge). reflexivity.
  - assert (EL : CacheManager.load true w
                 = (Ok (PInt p), set_clock_reads (S (clock_reads w)) w)).
    { unfold CacheManager.load, bind, os_path_exists, try_except, read_json,
        time_time, lift.
      rewrite Hfile. cbn [negb]. rewrite Hfile. cbn [py_get].
      fold (stamp_of d). rewrite H1, orb_true_r, Hprice. reflexivity. }
    unfold GoldService.get_master_price. unfold bind at 1. rewrite EL.
    unfold bind at 1, os_path_exists. cbn [cache_file set_clock_reads].
    rewrite Hfile. unfold bind at 1, read_json. cbn [cache_file set_clock_reads].
    rewrite Hfile. unfold bind at 1, time_time.
    cbn [clock clock_reads set_clock_reads].
    assert (Es : forall w0,
               (if truthy (PDict d)
                then lift (py_get (PDict d) "timestamp" (PInt 0))
                else ret (PInt 0)) w0 = (Ok (stamp_of d), w0))
      by (intros w0; destruct d; reflexivity).
    unfold bind at 1. rewrite Es. unfold bind at 1, lift. rewrite H2.
    unfold bind at 1. rewrite Hnot. unfold ret. cbn [truthy].
    apply Z.eqb_neq in Hp. rewrite Hp. destruct w; reflexivity.
Qed.

Lemma freshness_tests_disagree_at_the_bound_witness :
  fst (CacheManager.load false hour_old_cache) = Ok PNone
  /\ fst (GoldService.get_master_price hour_old_cache) = Ok (PInt 168000).
Proof.
  assert (Hp : 168000 <> 0) by lia.
  destruct (freshness_tests_disagree_at_the_bound hour_old_cache _ 168000
              (float_of_Z 3600) (float_of_Z 3600)
              eq_refl eq_refl Hp eq_refl eq_refl eq_refl eq_refl) as [H1 H2].
  split; [exact H1 | rewrite H2; reflexivity].
Defined.

(** X9: on any record that is a JSON object and whose age, at the second
    reading of the clock, is above 3600 seconds, [get_master_price] raises
    [AttributeError]: the attribute it names as thread target is not one
    of the class. *)
Theorem get_master_price_raises_on_stale_record :
  forall (w : World) (d : list (string * pyval)) (age : spec_float),
    cache_file w = Some (Document (PDict d)) ->
    py_float_sub (clock w (S (clock_reads w))) (stamp_of d) = Ok age ->
    float_gt_int age CACHE_EXPIRY_SECONDS = true ->
    fst (GoldService.get_master_price w)
    = Raise (AttributeError
               "type object 'MarketScraper' has no attribute 'fetch_goodreturns_and_save'").
Proof.
  intros w d age Hfile Hage Hgt.
  rewrite (get_master_price_dict w d Hfile), Hage, Hgt. reflexivity.
Qed.

Lemma get_master_price_raises_on_stale_record_witness :
  fst (GoldService.get_master_price stale_cache)
  = Raise (AttributeError
             "type object 'MarketScraper' has no attribute 'fetch_goodreturns_and_save'").
Proof.
  exact (get_master_price_raises_on_stale_record stale_cache _ (float_of_Z 7200)
           eq_refl eq_refl eq_refl).
Defined.

(** X10: the second reading of the cache file in [get_master_price] is not
    guarded: the error of a file that cannot be read or decoded reaches
    the caller, and so does the [TypeError] of a timestamp that is a
    string, which says that a str cannot be subtracted from a float. *)
Theorem get_master_price_lets_read_errors_out :
  forall (w : World),
    (forall e, cache_file w = Some (Unreadable e) ->
               fst (GoldService.get_master_price w) = Raise e)
    /\ (forall d s,
          cache_file w = Some (Document (PDict d)) ->
          dict_lookup d "timestamp" = Some (PStr s) ->
          fst (GoldService.get_master_price w)
          = Raise (TypeError "unsupported operand type(s) for -: 'float' and 'str'")).
Proof.
  intros w. split.
  - intros e Hfile. unfold GoldService.get_master_price. unfold bind at 1.
    destruct (never_raises_load true w) as [cached Ec].
    destruct (quiet_load true w) as (k & l & Ew).
    destruct (CacheManager.load true w) as [r w1]. simpl in Ec, Ew. subst r w1.
    unfold bind at 1, os_path_exists. cbn [cache_file set_log set_clock_reads].
    rewrite Hfile. unfold bind at 1, read_json. cbn [cache_file set_log set_clock_reads].
    rewrite Hfile. reflexivity.
  - intros d s Hfile Hs. rewrite (get_master_price_dict w d Hfile).
    unfold stamp_of. rewrite Hs. reflexivity.
Qed.

Lemma get_master_price_lets_read_errors_out_witness :
  fst (GoldService.get_master_price corrupt_cache)
  = Raise (JSONDecodeError "Expecting value: line 1 column 1 (char 0)")
  /\ fst (GoldService.get_master_price text_stamp_cache)
     = Raise (TypeError "unsupported operand type(s) for -: 'float' and 'str'").
Proof.
  split.
  - exact (proj1 (get_master_price_lets_read_errors_out corrupt_cache) _ eq_refl).
  - exact (proj2 (get_master_price_lets_read_errors_out text_stamp_cache)
             _ _ eq_refl eq_refl).
Defined.

(** ** The status endpoint *)

(** X11: [system_status] never raises, whatever the state of the cache
    file.  It reports whether the file exists and what
    [load(ignore_expiry=True)] returns, which is [None] when there is no
    file; it starts no thread, sends no request and leaves the file as it
    was. *)
Theorem system_status_always_answers :
  forall (w : World),
    exists payload,
      fst (system_status w) = Ok payload
      /\ status payload = "online"
      /\ cache_file_exists payload
         = match cache_file w with Some _ => true | None => false end
      /\ fst (CacheManager.load true w) = Ok (cached_price payload)
      /\ (cache_file_exists payload = false -> cached_price payload = PNone)
      /\ threads (snd (system_status w)) = threads w
      /\ requests_sent (snd (system_status w)) = requests_sent w
      /\ cache_file (snd (system_status w)) = cache_file w.
Proof.
  intros w.
  destruct (never_raises_load true w) as [cached Ec].
  destruct (quiet_load true w) as (k & l & Ew).
  pose proof (load_no_file true w) as Hnone.
  destruct (CacheManager.load true w) as [r w1] eqn:EL. simpl in Ec, Ew. subst r.
  assert (E : system_status w
              = (Ok {| status := "online"; cached_price := cached;
                       cache_file_exists :=
                         match cache_file w1 with Some _ => true | None => false end |},
                 w1))
    by (unfold system_status, bind, os_path_exists, ret; rewrite EL; reflexivity).
  rewrite E. subst w1. cbn [fst snd cache_file threads requests_sent set_log set_clock_reads].
  eexists. split; [reflexivity |].
  cbn [status cache_file_exists cached_price].
  split; [reflexivity | split; [reflexivity | split; [reflexivity | split]]].
  - destruct (cache_file w); [discriminate |]. intros _.
    specialize (Hnone eq_refl). congruence.
  - repeat split; reflexivity.
Qed.

Lemma system_status_always_answers_witness :
  exists payload,
    fst (system_status fresh_install) = Ok payload
    /\ cached_price payload = PNone.
Proof.
  destruct (system_status_always_answers fresh_install)
    as (payload & E & _ & Hex & _ & Hnone & _).
  exists payload. split; [exact E | exact (Hnone Hex)].
Defined.

(** ** The scraper, in general *)

Section ScraperRuns.

Import MarketScraper.

Lemma next_user_agent_in_pool (w : World) : In (next_user_agent w) USER_AGENTS.
Proof.
  unfold next_user_agent. apply nth_In. apply Nat.mod_upper_bound. discriminate.
Qed.

(** The turn for one source, by what the network answers. *)
Lemma attempt_by_answer (url : string) (w : World) :
  attempt url w
  = let started := [(INFO, "Attempting to scrape: " ++ url)] in
    match network w (List.length (requests_sent w)) url (next_user_agent w) with
    | Failed e =>
        (Ok Continue,
         after_attempt url w
           (started ++ [(ERROR, "Error scraping " ++ url ++ ": " ++ exc_str e)]))
    | Answer resp =>
        if negb (status_code resp =? 200)
        then (Ok Continue, after_attempt url w started)
        else
          match scan_tables (soup_find_all "table" (soup resp))
                  (after_attempt url w started) with
          | (Ok r, w') => (Ok r, w')
          | (Raise e, w') =>
              (Ok Continue,
               set_log (log w' ++ [(ERROR, "Error scraping " ++ url ++ ": " ++ exc_str e)]) w')
          end
    end.
Proof.
  unfold attempt, bind at 1, logger at 1.
  unfold try_except, scrape, bind at 1, _get_headers, random_choice, bind at 1,
    random_draw, ret at 1.
  cbn [rng rng_draws set_log set_rng_draws].
  unfold bind at 1, requests_get.
  cbn [network requests_sent set_log set_rng_draws].
  fold (next_user_agent w). cbv zeta.
  destruct (network w _ url (next_user_agent w)) as [e | resp].
  - unfold bind, logger, ret, after_attempt, set_log, set_requests_sent, set_rng_draws.
    cbn. rewrite <- app_assoc. reflexivity.
  - destruct (negb (status_code resp =? 200)); [reflexivity |].
    change (set_requests_sent _ _) with
      (after_attempt url w [(INFO, "Attempting to scrape: " ++ url)]).
    destruct (scan_tables _ _) as [[r | e] w']; reflexivity.
Qed.

Lemma scan_rows_skip (skipped rows : list node) (w : World) :
  forallb (fun r => negb (row_qualifies (find_all "td" r))) skipped = true ->
  scan_rows (skipped ++ rows) w = scan_rows rows w.
Proof.
  induction skipped as [| r skipped IH]; intros H; [reflexivity |].
  simpl in H. apply andb_true_iff in H as [Hr Hs]. apply negb_true_iff in Hr.
  cbn [app]. rewrite scan_rows_step, Hr. exact (IH Hs).
Qed.

Lemma scan_tables_skip (skipped tables : list node) (w : World) :
  forallb (fun t => negb (table_qualifies t)) skipped = true ->
  scan_tables (skipped ++ tables) w = scan_tables tables w.
Proof.
  induction skipped as [| t skipped IH]; intros H; [reflexivity |].
  simpl in H. apply andb_true_iff in H as [Ht Hs]. apply negb_true_iff in Ht.
  cbn [app]. rewrite scan_tables_step, Ht. exact (IH Hs).
Qed.

End ScraperRuns.

(** [_get_headers] always picks its user agent in [USER_AGENTS], at the
    cost of one random draw. *)
Lemma get_headers_picks_from_pool :
  forall (w : World),
    exists ua,
      MarketScraper._get_headers w = (Ok ua, set_rng_draws (S (rng_draws w)) w)
      /\ In ua MarketScraper.USER_AGENTS.
Proof.
  intros w. exists (next_user_agent w). split; [reflexivity |].
  apply next_user_agent_in_pool.
Qed.

(** X12: the scraper sends one request per source it tries, in the order
    of the list and without skipping any: the urls requested are a prefix
    of the list.  Every request carries a user agent of the pool and costs
    one random draw; the clock is not read. *)
Theorem fetch_requests_are_a_prefix_of_the_sources :
  forall (urls : list string) (w : World),
    exists new,
      requests_sent (snd (MarketScraper.fetch_from urls w))
      = (requests_sent w ++ new)%list
      /\ (exists k, map fst new = firstn k urls)
      /\ Forall (fun r => In (snd r) MarketScraper.USER_AGENTS) new
      /\ rng_draws (snd (MarketScraper.fetch_from urls w))
         = (rng_draws w + List.length new)%nat
      /\ clock_reads (snd (MarketScraper.fetch_from urls w)) = clock_reads w.
Proof.
  induction urls as [| url rest IH]; intros w.
  - exists []. cbn. rewrite app_nil_r, Nat.add_0_r.
    repeat split; try constructor. exists O. reflexivity.
  - rewrite fetch_from_step.
    destruct (attempt_run url w) as ([| p] & lines & E & _); rewrite E.
    + destruct (IH (after_attempt url w lines)) as (new & Hreq & [k Hk] & Hua & Hrng & Hclk).
      exists ((url, next_user_agent w) :: new).
      rewrite Hreq, Hrng, Hclk.
      cbn [after_attempt requests_sent rng_draws clock_reads set_log set_requests_sent
             set_rng_draws].
      split; [rewrite <- app_assoc; reflexivity |].
      split; [exists (S k); simpl; rewrite Hk; reflexivity |].
      split; [constructor; [apply next_user_agent_in_pool | exact Hua] |].
      split; [simpl; lia | reflexivity].
    + exists [(url, next_user_agent w)].
      cbn [snd after_attempt requests_sent rng_draws clock_reads set_log set_requests_sent
             set_rng_draws].
      split; [reflexivity |].
      split; [exists 1%nat; reflexivity |].
      split; [constructor; [apply next_user_agent_in_pool | constructor] |].
      split; [simpl; lia | reflexivity].
Qed.

(** X13: a request that fails in transport is not fatal: the turn ends
    without a price, and the error is logged with the url and the text of
    the exception. *)
Theorem transport_failure_is_logged_and_skipped :
  forall (url : string) (w : World) (e : exc),
    network w (List.length (requests_sent w)) url (next_user_agent w) = Failed e ->
    MarketScraper.attempt url w
    = (Ok MarketScraper.Continue,
       after_attempt url w
         [(INFO, "Attempting to scrape: " ++ url);
          (ERROR, "Error scraping " ++ url ++ ": " ++ exc_str e)]).
Proof.
  intros url w e H. rewrite attempt_by_answer. cbv zeta. rewrite H. reflexivity.
Qed.

Lemma transport_failure_is_logged_and_skipped_witness :
  fst (MarketScraper.attempt policybazaar fresh_install) = Ok MarketScraper.Continue.
Proof.
  rewrite (transport_failure_is_logged_and_skipped policybazaar fresh_install
             (RequestException "connection refused") eq_refl).
  reflexivity.
Defined.

(** X14: an answer whose status is not 200 is dropped unread: whatever the
    page holds, a valid price included, the turn ends without a price, and
    nothing but the line announcing the attempt is logged. *)
Theorem non_200_answer_is_skipped_silently :
  forall (url : string) (w : World) (resp : response),
    network w (List.length (requests_sent w)) url (next_user_agent w) = Answer resp ->
    status_code resp <> 200 ->
    MarketScraper.attempt url w
    = (Ok MarketScraper.Continue,
       after_attempt url w [(INFO, "Attempting to scrape: " ++ url)]).
Proof.
  intros url w resp H Hs. rewrite attempt_by_answer. cbv zeta. rewrite H.
  apply Z.eqb_neq in Hs. rewrite Hs. reflexivity.
Qed.

Lemma non_200_answer_is_skipped_silently_witness :
  fst (MarketScraper.fetch_goodreturns error_page) = Ok None.
Proof.
  assert (H : 503 <> 200) by lia.
  pose proof (non_200_answer_is_skipped_silently policybazaar error_page _ eq_refl H) as E.
  unfold MarketScraper.fetch_goodreturns, MarketScraper.sources.
  rewrite fetch_from_step. fold policybazaar. rewrite E. reflexivity.
Defined.

(** X15: a rate that cannot be read as an integer abandons the whole
    source.  When the first qualifying row of the first qualifying table
    holds such a cell, the turn ends without a price, whatever the rows and
    tables after it hold, and the [ValueError] is logged as an error. *)
Theorem unreadable_rate_abandons_the_source :
  forall (url : string) (w : World) (resp : response)
         (other_tables tables : list node) (table : node)
         (other_rows rows : list node) (row : node) (e : exc),
    network w (List.length (requests_sent w)) url (next_user_agent w) = Answer resp ->
    status_code resp = 200 ->
    soup_find_all "table" (soup resp) = (other_tables ++ table :: tables)%list ->
    forallb (fun t => negb (MarketScraper.table_qualifies t)) other_tables = true ->
    MarketScraper.table_qualifies table = true ->
    find_all "tr" table = (other_rows ++ row :: rows)%list ->
    forallb (fun r => negb (MarketScraper.row_qualifies (find_all "td" r))) other_rows = true ->
    MarketScraper.row_qualifies (find_all "td" row) = true ->
    MarketScraper.parse_price_cell (get_text (nth 1 (find_all "td" row) (Text ""))) = Raise e ->
    MarketScraper.attempt url w
    = (Ok MarketScraper.Continue,
       after_attempt url w
         [(INFO, "Attempting to scrape: " ++ url);
          (ERROR, "Error scraping " ++ url ++ ": " ++ exc_str e)]).
Proof.
  intros url w resp ots tables table ors rows row e Hnet Hst Htabs Hots Htq Hrows Hors Hrq Hp.
  rewrite attempt_by_answer. cbv zeta. rewrite Hnet, Hst. cbn [Z.eqb Pos.eqb negb].
  rewrite Htabs, (scan_tables_skip _ _ _ Hots), scan_tables_step, Htq.
  rewrite Hrows, (scan_rows_skip _ _ _ Hors), scan_rows_step, Hrq, Hp.
  unfold after_attempt, set_log, set_requests_sent, set_rng_draws. cbn.
  rewrite <- app_assoc. reflexivity.
Qed.

Lemma unreadable_rate_abandons_the_source_witness :
  fst (MarketScraper.fetch_goodreturns unreadable_first_rate) = Ok None.
Proof.
  pose proof (unreadable_rate_abandons_the_source policybazaar unreadable_first_rate
                _ [] [] _ [_] [_] _ _
                eq_refl eq_refl eq_refl eq_refl eq_refl eq_refl eq_refl eq_refl eq_refl)
    as E.
  unfold MarketScraper.fetch_goodreturns, MarketScraper.sources.
  rewrite fetch_from_step. fold policybazaar. rewrite E. reflexivity.
Defined.

(** ** Price cells, further *)

Section PriceCellRuns.

Import MarketScraper.

Lemma no_digit_filter (l : list price_char) :
  existsb is_digit l = false -> filter is_digit l = [].
Proof.
  induction l as [| c r IH]; simpl; [reflexivity |].
  intros H. apply orb_false_iff in H as [Hc Hr]. rewrite Hc. exact (IH Hr).
Qed.


End PriceCellRuns.

(** X16: a cell with no digit in it, the empty cell included, cannot be
    read: the cleaning leaves the empty string and [int] raises
    [ValueError]. *)
Theorem cell_without_digit_raises :
  forall (l : list price_char),
    existsb is_digit l = false ->
    MarketScraper.parse_price_cell (render l)
    = Raise (ValueError "invalid literal for int() with base 10: ''").
Proof.
  intros l H. unfold MarketScraper.parse_price_cell.
  rewrite clean_render, (no_digit_filter l H). reflexivity.
Qed.

Lemma cell_without_digit_raises_witness :
  MarketScraper.parse_price_cell "₹."
  = Raise (ValueError "invalid literal for int() with base 10: ''").
Proof.
  exact (cell_without_digit_raises [Rupee; Dot] eq_refl).
Defined.



(** ** Charts, further *)

Section ChartRuns.

Import GoldService.

Variables base_price day : Z.

Lemma week_loop_run (days : list Z) (w : World) :
  week_loop base_price day days w
  = (Ok (map (fun i => strftime w "%a" (day - i)) days,
         map (fun i => base_price + nth (Z.to_nat (6 - i)) variance_pattern 0) days),
     w).
Proof.
  induction days as [| i rest IH]; [reflexivity |].
  cbn [week_loop map]. unfold bind, day_label. rewrite IH. reflexivity.
Qed.

(** The monthly loop draws once a day and changes nothing else; its series
    moves by bounded steps. *)
Lemma month_loop_run (days : list Z) :
  forall (current : Z) (w : World),
  exists ds,
    month_loop base_price day days current w
    = (Ok (map (fun i => strftime w "%d %b" (day - i)) days, ds),
       set_rng_draws (List.length days + rng_draws w) w)
    /\ step_ok base_price current days ds.
Proof.
  induction days as [| i rest IH]; intros current w.
  - exists []. split; [destruct w; reflexivity | exact I].
  - cbn [month_loop]. unfold bind at 1, day_label at 1.
    unfold bind at 1, random_randint at 1, bind at 1, random_draw at 1, ret at 1.
    unfold bind at 1.
    match goal with
    | |- context [month_loop _ _ rest ?c ?w1] =>
        destruct (IH c w1) as (ds & E & Hs); rewrite E
    end.
    eexists. split.
    + unfold ret. cbn [fst snd map strftime set_rng_draws rng_draws List.length].
      rewrite Nat.add_succ_r. reflexivity.
    + cbn [step_ok]. split; [| exact Hs].
      destruct (i =? 0); [reflexivity |].
      pose proof (Z.mod_pos_bound (Z.of_nat (rng w (rng_draws w))) (400 - -300 + 1)).
      lia.
Qed.

Lemma step_ok_bound (days : list Z) :
  forall (series : list Z) (prev : Z) (k : nat) (v : Z),
    step_ok base_price prev days series ->
    (forall j i, (j <= k)%nat -> nth_error days j = Some i -> i <> 0) ->
    nth_error series k = Some v ->
    prev - 300 * (Z.of_nat k + 1) <= v <= prev + 400 * (Z.of_nat k + 1).
Proof.
  induction days as [| i rest IH]; intros [| v0 series] prev k v Hs Hnz Hk;
    try (destruct k; discriminate); try contradiction.
  cbn [step_ok] in Hs. destruct Hs as [Hstep Hrest].
  assert (Hi : i <> 0) by (apply (Hnz O i); [lia | reflexivity]).
  apply Z.eqb_neq in Hi. rewrite Hi in Hstep.
  destruct k as [| k'].
  - injection Hk as <-. simpl. lia.
  - simpl in Hk.
    assert (Hb := IH series v0 k' v Hrest
                    (fun j i' Hj Hn => Hnz (S j) i' (proj1 (Nat.succ_le_mono _ _) Hj) Hn)
                    Hk).
    lia.
Qed.

Lemma step_ok_step (days : list Z) :
  forall (series : list Z) (prev : Z) (k : nat) (a b i : Z),
    step_ok base_price prev days series ->
    nth_error days (S k) = Some i -> i <> 0 ->
    nth_error series k = Some a ->
    nth_error series (S k) = Some b ->
    -300 <= b - a <= 400.
Proof.
  induction days as [| i0 rest IH]; intros [| v0 series] prev k a b i Hs Hi Hnz Ha Hb;
    try discriminate; try contradiction.
  cbn [step_ok] in Hs. destruct Hs as [_ Hrest].
  destruct k as [| k'].
  - simpl in Ha, Hb, Hi. injection Ha as <-.
    destruct rest as [| i1 rest']; [discriminate |].
    destruct series as [| v1 series']; [discriminate |].
    simpl in Hb, Hi. injection Hb as <-. injection Hi as <-.
    cbn [step_ok] in Hrest. destruct Hrest as [Hstep _].
    apply Z.eqb_neq in Hnz. rewrite Hnz in Hstep. exact Hstep.
  - simpl in Ha, Hb, Hi. exact (IH series v0 k' a b i Hrest Hi Hnz Ha Hb).
Qed.

Lemma countdown_nth (n : nat) :
  forall (j : nat) (i : Z),
    nth_error (countdown n) j = Some i -> i = Z.of_nat n - Z.of_nat j /\ (j <= n)%nat.
Proof.
  induction n as [| n' IH]; intros j i H.
  - destruct j as [| [| j']]; simpl in H; try discriminate.
    injection H as <-. split; [reflexivity | lia].
  - destruct j as [| j'].
    + cbn [countdown nth_error] in H. injection H as <-. split; lia.
    + cbn [countdown nth_error] in H. destruct (IH j' i H) as [-> Hle]. split; lia.
Qed.

End ChartRuns.

(** X18: the weekly series is the base price plus the fixed pattern, day by
    day, whatever the random generator gives; the labels are the formatted
    dates from six days back to today, and from twenty-nine days back to
    today.  Building the charts draws thirty random numbers and changes
    nothing else. *)
Theorem generate_charts_weekly_is_fixed_pattern :
  forall (base_price : Z) (w : World),
    exists c,
      GoldService.generate_charts base_price w
      = (Ok c, set_rng_draws (30 + rng_draws w) w)
      /\ GoldService.data (GoldService.weekly c)
         = map (fun v => base_price + v) GoldService.variance_pattern
      /\ GoldService.labels (GoldService.weekly c)
         = map (fun i => strftime w "%a" (today w - i)) [6; 5; 4; 3; 2; 1; 0]
      /\ GoldService.labels (GoldService.monthly c)
         = map (fun i => strftime w "%d %b" (today w - i)) (GoldService.countdown 29).
Proof.
  intros base_price w. unfold GoldService.generate_charts.
  unfold bind at 1. cbv beta iota. unfold bind at 1. rewrite week_loop_run.
  destruct (month_loop_run base_price (today w) (GoldService.countdown 29)
              (base_price - 1500) w) as (md & Em & _).
  unfold bind at 1. rewrite Em. unfold ret.
  eexists. split; [reflexivity |].
  cbn [GoldService.data GoldService.labels GoldService.weekly GoldService.monthly fst snd].
  repeat split.
Qed.

(** The run of [generate_charts], with the monthly series named. *)
Lemma generate_charts_run (base_price : Z) (w : World) :
  exists md,
    GoldService.generate_charts base_price w
    = (Ok {| GoldService.weekly :=
               {| GoldService.labels :=
                    map (fun i => strftime w "%a" (today w - i)) (GoldService.countdown 6);
                  GoldService.data :=
                    map (fun i => base_price
                                  + nth (Z.to_nat (6 - i)) GoldService.variance_pattern 0)
                      (GoldService.countdown 6) |};
             GoldService.monthly :=
               {| GoldService.labels :=
                    map (fun i => strftime w "%d %b" (today w - i))
                      (GoldService.countdown 29);
                  GoldService.data := md |} |},
       set_rng_draws (30 + rng_draws w) w)
    /\ step_ok base_price (base_price - 1500) (GoldService.countdown 29) md.
Proof.
  unfold GoldService.generate_charts.
  unfold bind at 1. cbv beta iota. unfold bind at 1. rewrite week_loop_run.
  destruct (month_loop_run base_price (today w) (GoldService.countdown 29)
              (base_price - 1500) w) as (md & Em & Hs).
  unfold bind at 1. rewrite Em. unfold ret.
  exists md. split; [reflexivity | exact Hs].
Qed.

(** X19: the monthly series is a bounded walk.  Each of its first 29
    values is within 300 below and 400 above the value before it, the
    first being measured from the base price less 1500; so the value of
    day [k] lies between [base - 1500 - 300 (k + 1)] and
    [base - 1500 + 400 (k + 1)]. *)
Theorem generate_charts_monthly_walk_is_bounded :
  forall (base_price : Z) (w w' : World) (c : GoldService.charts),
    GoldService.generate_charts base_price w = (Ok c, w') ->
    (forall k v,
       (k < 29)%nat ->
       nth_error (GoldService.data (GoldService.monthly c)) k = Some v ->
       base_price - 1500 - 300 * (Z.of_nat k + 1) <= v
       <= base_price - 1500 + 400 * (Z.of_nat k + 1))
    /\ (forall k a b,
          (S k < 29)%nat ->
          nth_error (GoldService.data (GoldService.monthly c)) k = Some a ->
          nth_error (GoldService.data (GoldService.monthly c)) (S k) = Some b ->
          -300 <= b - a <= 400).
Proof.
  intros base_price w w' c H.
  destruct (generate_charts_run base_price w) as (md & E & Hs).
  rewrite E in H. injection H as <- _.
  cbn [GoldService.data GoldService.monthly].
  split.
  - intros k v Hk Hv.
    refine (step_ok_bound base_price _ md _ k v Hs _ Hv).
    intros j i Hj Hn. destruct (countdown_nth 29 j i Hn) as [-> _].
    clear - Hj Hk. change (Z.of_nat 29) with 29. lia.
  - intros k a b Hk Ha Hb.
    destruct (nth_error (GoldService.countdown 29) (S k)) as [i |] eqn:Hi.
    + refine (step_ok_step base_price _ md _ k a b i Hs Hi _ Ha Hb).
      destruct (countdown_nth 29 (S k) i Hi) as [-> _].
      clear - Hk. change (Z.of_nat 29) with 29. lia.
    + apply nth_error_None in Hi.
      change (List.length (GoldService.countdown 29)) with 30%nat in Hi.
      clear - Hi Hk. lia.
Qed.

Lemma generate_charts_monthly_walk_is_bounded_witness :
  150000 - 1500 - 300 * (Z.of_nat 1 + 1) <= 147901
  <= 150000 - 1500 + 400 * (Z.of_nat 1 + 1).
Proof.
  destruct (GoldService.generate_charts 150000 fresh_install) as [[c | e] w'] eqn:E.
  - apply (proj1 (generate_charts_monthly_walk_is_bounded 150000 fresh_install w' c E)
             1%nat 147901).
    + repeat constructor.
    + vm_compute in E. injection E as <- _. reflexivity.
  - vm_compute in E. discriminate.
Defined.

(** ** Region prices, on validated base prices *)

Section RegionRuns.

Import GoldService.

Lemma all_from_spec (f : Z -> bool) (n : nat) :
  forall lo, all_from n lo f = true ->
             forall z, lo <= z < lo + Z.of_nat n -> f z = true.
Proof.
  induction n as [| n' IH]; intros lo H z Hz; [lia |].
  cbn [all_from] in H. apply andb_true_iff in H as [H0 Hr].
  destruct (Z.eq_dec z lo) as [-> | Hne]; [exact H0 |].
  apply (IH (lo + 1) Hr). lia.
Qed.

(** On every price of the valid band the float product is exact. *)
Lemma scaling_exact_on_band :
  all_from (Z.to_nat 39999) (MIN_VALID_PRICE + 1) scaling_exact = true.
Proof. vm_compute. reflexivity. Qed.

Lemma scaled_on_band (b : Z) :
  MIN_VALID_PRICE < b < MAX_VALID_PRICE ->
  scaled b (float_literal 9166 10000) = Ok (b * 9166 / 10000).
Proof.
  intros Hb.
  assert (H : scaling_exact b = true).
  { apply (all_from_spec _ _ _ scaling_exact_on_band).
    unfold MIN_VALID_PRICE, MAX_VALID_PRICE in *. lia. }
  unfold scaling_exact in H.
  destruct (scaled b (float_literal 9166 10000)) as [z |]; [| discriminate].
  apply Z.eqb_eq in H. congruence.
Qed.

Lemma region_loop_exact (base24 base22 : Z) (offsets : list (string * Z)) :
  offsets_exact offsets = true ->
  region_loop base24 base22 offsets = Ok (map (entry_of base24 base22) offsets).
Proof.
  induction offsets as [| [n offset] rest IH]; intros H; [reflexivity |].
  unfold offsets_exact in H. simpl in H. apply andb_true_iff in H as [Ho Hr].
  cbn [region_loop]. unfold rbind at 1.
  destruct (scaled offset (float_literal 9 10)) as [off22 |]; [| discriminate].
  apply Z.eqb_eq in Ho. subst off22.
  rewrite (IH Hr). reflexivity.
Qed.

Lemma offsets_are_small :
  Forall (fun region => -25 <= snd region <= 200) STATE_OFFSETS.
Proof. repeat (constructor; [simpl; lia |]). constructor. Qed.

End RegionRuns.

(** X20: on a validated base price, one strictly between
    [MIN_VALID_PRICE] and [MAX_VALID_PRICE], the region prices are always
    returned and the float arithmetic is exact: the 22-karat price of an
    entry is [base * 9166 / 10000], rounded down, plus [offset * 9 / 10],
    rounded toward zero.  Every 22-karat price is positive and below the
    24-karat price of the same region, and the prices per gram are the
    prices per ten grams divided by 10, rounded down. *)
Theorem calculate_all_states_on_valid_price :
  forall (base : Z),
    MIN_VALID_PRICE < base < MAX_VALID_PRICE ->
    exists res,
      GoldService.calculate_all_states base = Ok res
      /\ Permutation res (map (entry_of base (base * 9166 / 10000)) STATE_OFFSETS)
      /\ (forall e, In e res ->
            exists offset,
              In (GoldService.name e, offset) STATE_OFFSETS
              /\ GoldService.p24 e = base + offset
              /\ GoldService.p22 e = base * 9166 / 10000 + Z.quot (offset * 9) 10
              /\ 0 < GoldService.p22 e < GoldService.p24 e
              /\ GoldService.p24_1g e = GoldService.p24 e / 10
              /\ GoldService.p22_1g e = GoldService.p22 e / 10).
Proof.
  intros base Hb.
  exists (GoldService.sort_by_name (map (entry_of base (base * 9166 / 10000)) STATE_OFFSETS)).
  split; [| split].
  - unfold GoldService.calculate_all_states.
    rewrite (scaled_on_band base Hb). cbn [rbind].
    rewrite region_loop_exact by (vm_compute; reflexivity). reflexivity.
  - apply sort_by_name_perm.
  - intros e He.
    apply (Permutation_in _ (sort_by_name_perm _)) in He.
    apply in_map_iff in He as ([n offset] & <- & Hin).
    pose proof offsets_are_small as Hsmall. rewrite Forall_forall in Hsmall.
    specialize (Hsmall _ Hin). cbn [snd] in Hsmall.
    exists offset.
    cbn [entry_of GoldService.name GoldService.p24 GoldService.p22
           GoldService.p24_1g GoldService.p22_1g fst snd].
    split; [exact Hin |].
    split; [reflexivity | split; [reflexivity | split; [| split; reflexivity]]].
    unfold MIN_VALID_PRICE, MAX_VALID_PRICE in Hb.
    pose proof (Z.mul_div_le (base * 9166) 10000 ltac:(lia)).
    pose proof (Z.mul_succ_div_gt (base * 9166) 10000 ltac:(lia)).
    assert (-25 <= Z.quot (offset * 9) 10 <= 180).
    { split.
      - apply Z.quot_le_lower_bound; lia.
      - apply Z.quot_le_upper_bound; lia. }
    lia.
Qed.

Lemma calculate_all_states_on_valid_price_witness :
  exists res, GoldService.calculate_all_states 150000 = Ok res.
Proof.
  assert (Hb : MIN_VALID_PRICE < 150000 < MAX_VALID_PRICE)
    by (unfold MIN_VALID_PRICE, MAX_VALID_PRICE; lia).
  destruct (calculate_all_states_on_valid_price 150000 Hb) as (res & E & _).
  exists res. exact E.
Defined.

